(** * Offline expense cache and reconciliation: a shallow embedding

    Embeds [src/lib/offline-storage.ts] (the IndexedDB wrapper) and the
    [useOfflineSync] hook and proves properties of the offline-first
    synchronisation core.

    Modelling conventions.
    - An IndexedDB object store with [keyPath: 'id'] is a finite map from
      the key to the stored value ([gmap string _]); [put] is insert,
      [delete] is delete, and [getAll] lists the values in ascending key
      order, which is the order IndexedDB prescribes for an object store.
    - A JavaScript [number] that the code only copies around is a [Z].
    - An optional property [p?: T] is an [option T] ([None] is [undefined]).
    - Strings are compared the way IndexedDB compares string keys, by
      UTF-16 code units ([JSString]).
    - Storage requests are taken to succeed (an opened database); the only
      operation that may throw inside a reconciliation pass is the remote
      call.  [Faulty] gives the pass with failing storage requests and a
      failing [createClient()].
    - An asynchronous function is a computation in a state and exception
      monad over the database, the log of requests sent, the React state
      setters called and the passes started without being awaited.  One
      pass of [syncPendingActions] runs uninterrupted; the interplay of
      several passes with React's renders is a separate transition system
      ([React]). *)

From stdpp Require Import gmap strings list fin_maps sorting.
From Stdlib Require Import ZArith.

Local Open Scope Z_scope.
Local Open Scope string_scope.
Local Open Scope list_scope.

(** ** Data model ([src/lib/offline-storage.ts], lines 7-35) *)

Module Category.
Record t := mk { id : string; name : string; color : string; icon : string }.
End Category.

Inductive Source := splitwise | manual.

Module OfflineExpense.
Record t := mk {
  id : string;
  user_id : string;
  amount : Z;
  description : string;
  date : string;
  currency : string;
  category_id : option string;
  category : option Category.t;
  payment_method : option string;
  notes : option string;
  is_excluded : option bool;
  source : option Source;
  synced : bool;
  created_at : string;
  updated_at : string
}.

(** [{ ...e, synced: b }] *)
Definition with_synced (b : bool) (e : t) : t :=
  mk (id e) (user_id e) (amount e) (description e) (date e) (currency e)
     (category_id e) (category e) (payment_method e) (notes e)
     (is_excluded e) (source e) b (created_at e) (updated_at e).

(** [{ ...e, updated_at: s }] *)
Definition with_updated_at (s : string) (e : t) : t :=
  mk (id e) (user_id e) (amount e) (description e) (date e) (currency e)
     (category_id e) (category e) (payment_method e) (notes e)
     (is_excluded e) (source e) (synced e) (created_at e) s.
End OfflineExpense.

(** [Partial<OfflineExpense>]: every property may be missing.  For a
    property that is itself optional, [Some None] is the property present
    with value [undefined]. *)
Module PartialExpense.
Record t := mk {
  id : option string;
  user_id : option string;
  amount : option Z;
  description : option string;
  date : option string;
  currency : option string;
  category_id : option (option string);
  category : option (option Category.t);
  payment_method : option (option string);
  notes : option (option string);
  is_excluded : option (option bool);
  source : option (option Source);
  synced : option bool;
  created_at : option string;
  updated_at : option string
}.

Definition empty : t :=
  mk None None None None None None None None None None None None None None None.
End PartialExpense.

(** Object spread [{ ...existing, ...updates }]: a property of [updates]
    that is present wins. *)
Definition spread (existing : OfflineExpense.t) (updates : PartialExpense.t)
  : OfflineExpense.t :=
  OfflineExpense.mk
    (default (OfflineExpense.id existing) (PartialExpense.id updates))
    (default (OfflineExpense.user_id existing) (PartialExpense.user_id updates))
    (default (OfflineExpense.amount existing) (PartialExpense.amount updates))
    (default (OfflineExpense.description existing) (PartialExpense.description updates))
    (default (OfflineExpense.date existing) (PartialExpense.date updates))
    (default (OfflineExpense.currency existing) (PartialExpense.currency updates))
    (default (OfflineExpense.category_id existing) (PartialExpense.category_id updates))
    (default (OfflineExpense.category existing) (PartialExpense.category updates))
    (default (OfflineExpense.payment_method existing) (PartialExpense.payment_method updates))
    (default (OfflineExpense.notes existing) (PartialExpense.notes updates))
    (default (OfflineExpense.is_excluded existing) (PartialExpense.is_excluded updates))
    (default (OfflineExpense.source existing) (PartialExpense.source updates))
    (default (OfflineExpense.synced existing) (PartialExpense.synced updates))
    (default (OfflineExpense.created_at existing) (PartialExpense.created_at updates))
    (default (OfflineExpense.updated_at existing) (PartialExpense.updated_at updates)).

Inductive ActionKind := create | update | delete.

Module PendingAction.
Record t := mk {
  id : string;
  action : ActionKind;
  expense : OfflineExpense.t;
  timestamp : Z
}.
End PendingAction.

Global Instance Category_eq_dec : EqDecision Category.t.
Proof. solve_decision. Defined.
Global Instance Source_eq_dec : EqDecision Source.
Proof. solve_decision. Defined.
Global Instance OfflineExpense_eq_dec : EqDecision OfflineExpense.t.
Proof. solve_decision. Defined.
Global Instance ActionKind_eq_dec : EqDecision ActionKind.
Proof. solve_decision. Defined.
Global Instance PendingAction_eq_dec : EqDecision PendingAction.t.
Proof. solve_decision. Defined.

(** ** JavaScript strings and their order

    A JavaScript string is a sequence of UTF-16 code units; it is written
    here as the [string] of its UTF-8 bytes.  IndexedDB compares string
    keys code unit by code unit, which is not the order of the bytes:
    a character above U+FFFF is two surrogate units (0xD800 to 0xDFFF)
    and so sorts before the characters U+E000 to U+FFFF. *)

Module JSString.
(** The code units of the character whose scalar value is [cp]. *)
Definition units_of (cp : N) : list N :=
  if (cp <? 0x10000)%N then [cp]
  else [(0xD800 + N.shiftr (cp - 0x10000) 10)%N;
        (0xDC00 + N.land (cp - 0x10000) 0x3FF)%N].

(** The payload bits of a continuation byte. *)
Definition cont (a : Ascii.ascii) : N := N.land (Ascii.N_of_ascii a) 0x3F.

(** The code units of a string, decoding its UTF-8 bytes: one, two,
    three or four bytes to a character by the leading byte.  A byte that
    starts no complete sequence is taken as a unit of its own. *)
Fixpoint utf16 (s : string) : list N :=
  match s with
  | EmptyString => []
  | String a s1 =>
      let b := Ascii.N_of_ascii a in
      if (b <? 0xC0)%N then b :: utf16 s1
      else if (b <? 0xE0)%N then
        match s1 with
        | String a1 s2 =>
            units_of (N.lor (N.shiftl (N.land b 0x1F) 6) (cont a1)) ++ utf16 s2
        | EmptyString => [b]
        end
      else if (b <? 0xF0)%N then
        match s1 with
        | String a1 (String a2 s3) =>
            units_of (N.lor (N.shiftl (N.land b 0x0F) 12)
                        (N.lor (N.shiftl (cont a1) 6) (cont a2))) ++ utf16 s3
        | _ => b :: utf16 s1
        end
      else
        match s1 with
        | String a1 (String a2 (String a3 s4)) =>
            units_of (N.lor (N.shiftl (N.land b 0x07) 18)
                        (N.lor (N.shiftl (cont a1) 12)
                           (N.lor (N.shiftl (cont a2) 6) (cont a3)))) ++ utf16 s4
        | _ => b :: utf16 s1
        end
  end.

(** Lexicographic comparison of code unit sequences; a proper prefix
    comes first. *)
Fixpoint compare_units (l1 l2 : list N) : comparison :=
  match l1, l2 with
  | [], [] => Eq
  | [], _ :: _ => Lt
  | _ :: _, [] => Gt
  | x :: l1', y :: l2' =>
      match N.compare x y with
      | Eq => compare_units l1' l2'
      | c => c
      end
  end.

Definition compare (s1 s2 : string) : comparison :=
  compare_units (utf16 s1) (utf16 s2).

Definition leb (s1 s2 : string) : bool :=
  match compare s1 s2 with Gt => false | _ => true end.

Definition ltb (s1 s2 : string) : bool :=
  match compare s1 s2 with Lt => true | _ => false end.
End JSString.

(** ** The IndexedDB object store *)

Module ObjectStore.
Section store.
Context {V : Type} (key : V → string).

(** Keys of an object store are compared as strings, code unit by code
    unit. *)
Definition key_le (x y : string * V) : Prop :=
  Is_true (JSString.leb x.1 y.1).

Global Instance key_le_dec x y : Decision (key_le x y).
Proof. unfold key_le. apply _. Defined.

(** [store.put(v)] with [keyPath: 'id'] *)
Definition put (v : V) (s : gmap string V) : gmap string V :=
  <[key v := v]> s.

(** [store.delete(k)] *)
Definition remove (k : string) (s : gmap string V) : gmap string V :=
  base.delete k s.

(** [store.getAll()] *)
Definition getAll (s : gmap string V) : list V :=
  (merge_sort key_le (map_to_list s)).*2.

(** Every value sits under its own key. *)
Definition wf (s : gmap string V) : Prop :=
  ∀ k v, s !! k = Some v → key v = k.
End store.
End ObjectStore.

(** ** [class OfflineStorage] ([src/lib/offline-storage.ts], lines 37-213) *)

Module OfflineStorage.
(** The database: the two object stores [EXPENSES_STORE] and
    [PENDING_STORE], both created with [keyPath: 'id']. *)
Record DB := mkDB {
  expenses : gmap string OfflineExpense.t;
  pending : gmap string PendingAction.t
}.

Definition empty : DB := mkDB ∅ ∅.

Definition wf (db : DB) : Prop :=
  ObjectStore.wf OfflineExpense.id (expenses db) ∧
  ObjectStore.wf PendingAction.id (pending db).

Definition getAllExpenses (db : DB) : list OfflineExpense.t :=
  ObjectStore.getAll (expenses db).

Definition saveExpense (expense : OfflineExpense.t) (db : DB) : DB :=
  mkDB (ObjectStore.put OfflineExpense.id expense (expenses db)) (pending db).

(** [expenses.forEach(expense => store.put(expense))] in one transaction *)
Definition saveMultipleExpenses (l : list OfflineExpense.t) (db : DB) : DB :=
  mkDB (foldl (λ s e, ObjectStore.put OfflineExpense.id e s) (expenses db) l)
       (pending db).

Definition deleteExpense (k : string) (db : DB) : DB :=
  mkDB (ObjectStore.remove k (expenses db)) (pending db).

Definition addPendingAction (a : PendingAction.t) (db : DB) : DB :=
  mkDB (expenses db) (ObjectStore.put PendingAction.id a (pending db)).

(** [store.getAll()] on the object store itself: the [timestamp] index
    created in [init] is not consulted. *)
Definition getPendingActions (db : DB) : list PendingAction.t :=
  ObjectStore.getAll (pending db).

Definition deletePendingAction (k : string) (db : DB) : DB :=
  mkDB (expenses db) (ObjectStore.remove k (pending db)).

Definition clearAll (db : DB) : DB := empty.
End OfflineStorage.

Import OfflineStorage.

(** ** The remote data service *)

(** The row written by [.update({...})] in [syncPendingActions]. *)
Module UpdatePayload.
Record t := mk {
  total_amount : Z;
  description : string;
  expense_date : string;
  currency_code : string;
  category_id : option (option Z);
  is_excluded : bool
}.
End UpdatePayload.

(** A request sent to the [splitwise_expenses] table, with the identifier
    given to [.eq('id', _)]. *)
Inductive RemoteCall :=
  | remote_update (payload : UpdatePayload.t) (row : string)
  | remote_delete (row : string).

(** What awaiting a request gives.  The awaited value [{ data, error }]
    carries a failure reported by the service in [error]; the promise may
    also reject, which the [await] turns into a throw. *)
Inductive RemoteOutcome :=
  | resolves_ok
  | resolves_error
  | throws.

Global Instance RemoteOutcome_eq_dec : EqDecision RemoteOutcome.
Proof. solve_decision. Defined.

(** ** A monad for the asynchronous code of the hook

    The state is threaded through; a throw keeps the state reached so far
    (nothing is rolled back). *)

Inductive SetState :=
  | setIsOnline (b : bool)
  | setIsSyncing (b : bool)
  | setPendingCount (n : nat)
  | setWasOffline (b : bool).

(** A [syncPendingActions] closure is determined by the values of
    [isOnline] and [isSyncing] of the render that created it. *)
Record SyncClosure := mkSync { cap_isOnline : bool; cap_isSyncing : bool }.

Record World := mkWorld {
  db : DB;
  calls : list RemoteCall;        (* requests sent so far, oldest first *)
  state_updates : list SetState;  (* React state setters called, oldest first *)
  spawned : list SyncClosure      (* [syncPendingActions()] calls not awaited *)
}.

Definition M (A : Type) : Type := World → (string + A) * World.

Global Instance M_ret : MRet M := λ A (x : A) w, (inr x, w).
Global Instance M_bind : MBind M := λ A B (f : A → M B) (m : M A) w,
  match m w with
  | (inl e, w') => (inl e, w')
  | (inr x, w') => f x w'
  end.

Definition throw {A} (msg : string) : M A := λ w, (inl msg, w).

(** [try { body } catch (error) { console.error(...) }] *)
Definition try_catch (body : M unit) : M unit := λ w,
  match body w with
  | (inl _, w') => (inr (), w')
  | r => r
  end.

(** [try { body } finally { fin }] *)
Definition try_finally (body : M unit) (fin : M unit) : M unit := λ w,
  match body w with
  | (inl e, w') => match fin w' with
                   | (inr _, w'') => (inl e, w'')
                   | r => r
                   end
  | (inr _, w') => fin w'
  end.

(** [for (const x of l) { body }] *)
Fixpoint for_each {A} (l : list A) (body : A → M unit) : M unit :=
  match l with
  | [] => mret ()
  | x :: l' => body x ;; for_each l' body
  end.

Definition read_db {A} (f : DB → A) : M A := λ w, (inr (f (db w)), w).

Definition write_db (f : DB → DB) : M unit := λ w,
  (inr (), mkWorld (f (db w)) (calls w) (state_updates w) (spawned w)).

Definition set_state (u : SetState) : M unit := λ w,
  (inr (), mkWorld (db w) (calls w) (state_updates w ++ [u]) (spawned w)).

(** [await supabaseClient.from('splitwise_expenses')...]: the request is
    sent; the awaited value is not inspected by the caller. *)
Definition await_remote (o : RemoteOutcome) (c : RemoteCall) : M unit := λ w,
  let w' := mkWorld (db w) (calls w ++ [c]) (state_updates w) (spawned w) in
  match o with
  | throws => (inl "fetch failed", w')
  | resolves_ok | resolves_error => (inr (), w')
  end.

(** ** [useOfflineSync] ([src/unnamed/part_001], lines 7-211) *)

Module UseOfflineSync.
Section hook.
(** The JavaScript builtin [parseInt]; [None] is [NaN]. *)
Context (parseInt : string → option Z).

(** The object given to [.update(...)], lines 67-74. *)
Definition update_payload (e : OfflineExpense.t) : UpdatePayload.t :=
  UpdatePayload.mk
    (OfflineExpense.amount e)
    (OfflineExpense.description e)
    (OfflineExpense.date e)
    (if decide (OfflineExpense.currency e = "") then "EUR"
     else OfflineExpense.currency e)
    (match OfflineExpense.category_id e with
     | Some s => if decide (s = "") then None else Some (parseInt s)
     | None => None
     end)
    (default false (OfflineExpense.is_excluded e)).

(** The body of the inner [try], lines 60-94. *)
Definition sync_action (outcome : PendingAction.t → RemoteOutcome)
    (action : PendingAction.t) : M unit :=
  let e := PendingAction.expense action in
  match PendingAction.action action with
  | update =>
      await_remote (outcome action)
        (remote_update (update_payload e) (OfflineExpense.id e))
  | delete =>
      await_remote (outcome action) (remote_delete (OfflineExpense.id e));;
      write_db (OfflineStorage.deleteExpense (OfflineExpense.id e))
  | create => mret ()
  end;;
  (if decide (PendingAction.action action ≠ delete)
   then write_db (saveExpense (OfflineExpense.with_synced true e))
   else mret ());;
  write_db (deletePendingAction (PendingAction.id action)).

(** The body of the outer [try], lines 52-104. *)
Definition drain (outcome : PendingAction.t → RemoteOutcome) : M unit :=
  pending ← read_db getPendingActions;
  for_each pending (λ action, try_catch (sync_action outcome action));;
  remainingPending ← read_db getPendingActions;
  set_state (setPendingCount (length remainingPending)).

(** [if (!isOnline || isSyncing) return], line 46. *)
Definition refused (c : SyncClosure) : bool :=
  negb (cap_isOnline c) || cap_isSyncing c.

(** A call [syncPendingActions()] whose promise is dropped, lines 167
    and 195.  The callee runs at once up to its first [await]: a refused
    call has returned by then, and otherwise [setIsSyncing(true)] has been
    called when the caller goes on; the rest of the pass runs later. *)
Definition spawn (c : SyncClosure) : M unit := λ w,
  (inr (),
   mkWorld (db w) (calls w)
           (state_updates w ++ if refused c then [] else [setIsSyncing true])
           (spawned w ++ [c])).

(** [syncPendingActions], lines 45-111, run as one uninterrupted pass.
    [outcome] tells what each queued action's request does in this pass. *)
Definition syncPendingActions (c : SyncClosure)
    (outcome : PendingAction.t → RemoteOutcome) : M unit :=
  if refused c then mret ()
  else
    set_state (setIsSyncing true);;
    try_finally (try_catch (drain outcome)) (set_state (setIsSyncing false)).

(** [expenses.find((e) => e.id === id)] *)
Definition find_expense (id : string) (l : list OfflineExpense.t)
  : option OfflineExpense.t :=
  List.find (λ e, bool_decide (OfflineExpense.id e = id)) l.

(** The object literal
    [{ ...existing, ...updates, synced: false, updated_at: now }],
    lines 147-152. *)
Definition updated_expense (existing : OfflineExpense.t)
    (updates : PartialExpense.t) (now : string) : OfflineExpense.t :=
  OfflineExpense.with_updated_at now
    (OfflineExpense.with_synced false (spread existing updates)).

(** [updateExpense], lines 140-174.  [isOnline] and [sync] are the values
    captured by the callback; [now] is [new Date().toISOString()], [uuid]
    is [crypto.randomUUID()] and [ms] is [Date.now()].  The function
    returns with the pass it started, if any, suspended at its first
    [await]. *)
Definition updateExpense (isOnline : bool) (sync : SyncClosure)
    (now uuid : string) (ms : Z)
    (id : string) (updates : PartialExpense.t) : M OfflineExpense.t :=
  expenses ← read_db getAllExpenses;
  match find_expense id expenses with
  | None => throw "Expense not found"
  | Some existing =>
      let updatedExpense := updated_expense existing updates now in
      write_db (saveExpense updatedExpense);;
      let action := PendingAction.mk uuid update updatedExpense ms in
      write_db (addPendingAction action);;
      pending ← read_db getPendingActions;
      set_state (setPendingCount (length pending));;
      (if isOnline then spawn sync else mret ());;
      mret updatedExpense
  end.

(** [deleteExpense] of the hook, lines 177-200. *)
Definition deleteExpense (isOnline : bool) (sync : SyncClosure)
    (uuid : string) (ms : Z) (id : string) : M unit :=
  expenses ← read_db getAllExpenses;
  match find_expense id expenses with
  | None => throw "Expense not found"
  | Some existing =>
      let action := PendingAction.mk uuid delete existing ms in
      write_db (addPendingAction action);;
      pending ← read_db getPendingActions;
      set_state (setPendingCount (length pending));;
      (if isOnline then spawn sync else mret ())
  end.
End hook.
End UseOfflineSync.

(** ** React: renders, captured values and passes in flight

    Within one render the state variables are constants; a state setter
    only queues an update, which the next render applies.  [useCallback]
    hands back the callback of an earlier render as long as its dependency
    list is unchanged. *)

Module React.
Import UseOfflineSync.

Record HookState := mkState {
  isOnline : bool;
  isSyncing : bool;
  pendingCount : nat;
  wasOffline : bool
}.

(** [useState(true)], [useState(false)], [useState(0)], [useState(false)] *)
Definition initial_state : HookState := mkState true false 0 false.

Definition apply_update (st : HookState) (u : SetState) : HookState :=
  match u with
  | setIsOnline b => mkState b (isSyncing st) (pendingCount st) (wasOffline st)
  | setIsSyncing b => mkState (isOnline st) b (pendingCount st) (wasOffline st)
  | setPendingCount n => mkState (isOnline st) (isSyncing st) n (wasOffline st)
  | setWasOffline b => mkState (isOnline st) (isSyncing st) (pendingCount st) b
  end.

Definition commit (st : HookState) (us : list SetState) : HookState :=
  foldl apply_update st us.

(** What one render of the hook hands out. *)
Record Rendered := mkRendered {
  state : HookState;
  (** [syncPendingActions], memoised on [[isOnline, isSyncing]] *)
  r_sync : SyncClosure;
  (** [updateExpense] and [deleteExpense], memoised on [[isOnline]]: the
      [isOnline] and the [syncPendingActions] they were created with *)
  r_mutate : bool * SyncClosure
}.

Definition mount : Rendered :=
  let s := mkSync (isOnline initial_state) (isSyncing initial_state) in
  mkRendered initial_state s (isOnline initial_state, s).

Definition render (prev : Rendered) (st : HookState) : Rendered :=
  let s :=
    if decide (isOnline st = isOnline (state prev) ∧
               isSyncing st = isSyncing (state prev))
    then r_sync prev
    else mkSync (isOnline st) (isSyncing st) in
  let m :=
    if decide (isOnline st = isOnline (state prev))
    then r_mutate prev
    else (isOnline st, s) in
  mkRendered st s m.

Record Runtime := mkRuntime {
  rendered : Rendered;
  queued : list SetState;   (* setter calls since the last render *)
  in_flight : nat;          (* passes past the guard, not yet at [finally] *)
  executed : nat            (* passes that got past the guard, in total *)
}.

Definition start : Runtime := mkRuntime mount [] 0 0.

Inductive Event :=
  | ev_sync                      (* the rendered [syncPendingActions] is called *)
  | ev_mutate (n : nat)          (* the rendered [updateExpense] or
                                    [deleteExpense] is called on a cached
                                    record; [n] is the queue length it reads *)
  | ev_render                    (* React renders again *)
  | ev_settle (n : nat)          (* a pass in flight runs to the end; [n] is
                                    the queue length it reads at line 102 *)
  | ev_connectivity (b : bool).  (* the window's online or offline event *)

(** The part of [syncPendingActions] before its first [await]. *)
Definition enter (c : SyncClosure) (rt : Runtime) : Runtime :=
  if refused c then rt
  else mkRuntime (rendered rt) (queued rt ++ [setIsSyncing true])
                 (S (in_flight rt)) (S (executed rt)).

Definition step (rt : Runtime) (ev : Event) : Runtime :=
  match ev with
  | ev_sync => enter (r_sync (rendered rt)) rt
  | ev_mutate n =>
      let rt' := mkRuntime (rendered rt) (queued rt ++ [setPendingCount n])
                           (in_flight rt) (executed rt) in
      if (r_mutate (rendered rt)).1 then enter (r_mutate (rendered rt)).2 rt'
      else rt'
  | ev_render =>
      mkRuntime (render (rendered rt) (commit (state (rendered rt)) (queued rt)))
                [] (in_flight rt) (executed rt)
  | ev_settle n =>
      match in_flight rt with
      | O => rt
      | S k => mkRuntime (rendered rt)
                         (queued rt ++ [setPendingCount n; setIsSyncing false])
                         k (executed rt)
      end
  | ev_connectivity b =>
      mkRuntime (rendered rt) (queued rt ++ [setIsOnline b])
                (in_flight rt) (executed rt)
  end.

Definition run (rt : Runtime) (evs : list Event) : Runtime := foldl step rt evs.

(** The rendered [syncPendingActions] holds the values of its own render
    (its dependency list names both). *)
Definition sync_fresh (r : Rendered) : Prop :=
  r_sync r = mkSync (isOnline (state r)) (isSyncing (state r)).
End React.

(** ** Sample data *)

Module Sample.
Definition e1 : OfflineExpense.t :=
  OfflineExpense.mk "e1" "u1" 10 "lunch" "2024-05-01" "EUR" None None None None
                    None (Some manual) true "2024-05-01T10:00:00.000Z"
                    "2024-05-01T10:00:00.000Z".

Definition e2 : OfflineExpense.t :=
  OfflineExpense.mk "e2" "u1" 7 "coffee" "2024-05-02" "EUR" None None None None
                    None (Some manual) true "2024-05-02T08:00:00.000Z"
                    "2024-05-02T08:00:00.000Z".

Definition amount_50 : PartialExpense.t :=
  PartialExpense.mk None None (Some 50) None None None None None None None None
                    None None None None.

Definition store0 : DB := saveMultipleExpenses [e1; e2] OfflineStorage.empty.

Definition world0 : World := mkWorld store0 [] [] [].

Definition no_parse : string → option Z := λ _, None.

Definition online_idle : SyncClosure := mkSync true false.

Definition amount_25 : PartialExpense.t :=
  PartialExpense.mk None None (Some 25) None None None None None None None None
                    None None None None.

Definition amount_40 : PartialExpense.t :=
  PartialExpense.mk None None (Some 40) None None None None None None None None
                    None None None None.

(** An update that tries to set [synced] and [updated_at] itself. *)
Definition claims_synced : PartialExpense.t :=
  PartialExpense.mk None None (Some 50) None None None None None None None None
                    None (Some true) None (Some "1999-01-01T00:00:00.000Z").

(** The world after [updateExpense("e1", { amount: 25 })] made offline. *)
Definition edited_offline : World :=
  (UseOfflineSync.updateExpense false online_idle "2024-05-03T09:00:00.000Z"
     "7c9e6679-7425-40de-944b-e07fc1f90ae7" 1714726800000 "e1" amount_25
     world0).2.


(** The world after two offline edits of "e1": amount 25 at time 1000,
    then amount 40 at time 2000.  The identifier drawn for the second
    action sorts before the one drawn for the first. *)
Definition edited_twice : World :=
  (UseOfflineSync.updateExpense false online_idle "2024-05-03T09:00:02.000Z"
     "16fd2706-8baf-433b-82eb-8c7fada847da" 2000 "e1" amount_40
     (UseOfflineSync.updateExpense false online_idle "2024-05-03T09:00:01.000Z"
        "f47ac10b-58cc-4372-a567-0e02b2c3d479" 1000 "e1" amount_25
        world0).2).2.

(** A queue holding a [create] action for a record that is not cached. *)
Definition e7 : OfflineExpense.t :=
  OfflineExpense.mk "e7" "u1" 99 "taxi" "2024-05-05" "EUR" None None None None
                    None (Some manual) false "2024-05-05T08:00:00.000Z"
                    "2024-05-05T08:00:00.000Z".

Definition create_e7 : PendingAction.t :=
  PendingAction.mk "9a0b1c2d-0000-4000-8000-000000000001" create e7 500.

Definition with_create : World :=
  mkWorld (addPendingAction create_e7 store0) [] [] [].

Definition always (o : RemoteOutcome) : PendingAction.t → RemoteOutcome := λ _, o.

(** The request that carries a given amount, for reading a call log. *)
Definition sent_amount (c : RemoteCall) : option Z :=
  match c with
  | remote_update p _ => Some (UpdatePayload.total_amount p)
  | remote_delete _ => None
  end.
End Sample.


(** ** The [date] index ([src/lib/offline-storage.ts], lines 58 and 86-100) *)

Module DateIndex.
(** Order of the records in the [date] index: by the indexed value, and
    by the primary key among records with the same value. *)
Definition index_leb (x y : OfflineExpense.t) : bool :=
  match JSString.compare (OfflineExpense.date x) (OfflineExpense.date y) with
  | Lt => true
  | Eq => JSString.leb (OfflineExpense.id x) (OfflineExpense.id y)
  | Gt => false
  end.

Definition index_le (x y : OfflineExpense.t) : Prop := Is_true (index_leb x y).

Global Instance index_le_dec x y : Decision (index_le x y).
Proof. unfold index_le. apply _. Defined.

(** Membership in [IDBKeyRange.bound(lower, upper)], both ends included. *)
Definition in_range (lower upper : string) (e : OfflineExpense.t) : Prop :=
  Is_true (JSString.leb lower (OfflineExpense.date e))
  ∧ Is_true (JSString.leb (OfflineExpense.date e) upper).

Global Instance in_range_dec lower upper e : Decision (in_range lower upper e).
Proof. unfold in_range. apply _. Defined.

(** [getExpensesByDateRange].  A [Date] is given by its
    [toISOString()]: [None] is an invalid date, for which [toISOString]
    throws a [RangeError].  [IDBKeyRange.bound] throws a [DataError] when
    the lower bound is greater than the upper one.  Either throw rejects
    the promise. *)
Definition getExpensesByDateRange (startDate endDate : option string) (db : DB)
  : string + list OfflineExpense.t :=
  match startDate, endDate with
  | Some startISO, Some endISO =>
      if JSString.ltb endISO startISO then inl "DataError"
      else inr (merge_sort index_le
                  (filter (in_range startISO endISO) (getAllExpenses db)))
  | _, _ => inl "RangeError"
  end.
End DateIndex.

(** ** A pass whose storage requests and client creation may fail

    [syncPendingActions] once more (lines 45-111), now with the failures
    that the rest of the development leaves out: [createClient()] may
    throw, and a request to the local database may reject, which leaves
    the database as it was.  Within one iteration at most one storage
    request rejects, since the first rejection ends the iteration. *)

Module Faulty.
Import UseOfflineSync.

Inductive WriteStage :=
  | at_deleteExpense          (* line 80 *)
  | at_saveExpense            (* line 86 *)
  | at_deletePendingAction.   (* line 93 *)

Global Instance WriteStage_eq_dec : EqDecision WriteStage.
Proof. solve_decision. Defined.

Record Faults := mkFaults {
  first_read_fails : bool;    (* [getPendingActions()] at line 52 rejects *)
  client_fails : bool;        (* [createClient()] at line 56 throws *)
  write_fails : PendingAction.t → option WriteStage;
                              (* the storage request of the action's
                                 iteration that rejects, if any *)
  last_read_fails : bool      (* [getPendingActions()] at line 102 rejects *)
}.

Definition no_faults : Faults := mkFaults false false (λ _, None) false.

(** A storage request that changes the database, or rejects. *)
Definition storage_write (fails : bool) (f : DB → DB) : M unit :=
  if fails then throw "storage request failed" else write_db f.

(** A storage request that reads the database, or rejects. *)
Definition storage_read {A} (fails : bool) (f : DB → A) : M A :=
  if fails then throw "storage request failed" else read_db f.

Section faulty.
Context (parseInt : string → option Z) (faults : Faults).

Definition sync_action (outcome : PendingAction.t → RemoteOutcome)
    (action : PendingAction.t) : M unit :=
  let e := PendingAction.expense action in
  match PendingAction.action action with
  | update =>
      await_remote (outcome action)
        (remote_update (update_payload parseInt e) (OfflineExpense.id e))
  | delete =>
      await_remote (outcome action) (remote_delete (OfflineExpense.id e));;
      storage_write
        (bool_decide (write_fails faults action = Some at_deleteExpense))
        (OfflineStorage.deleteExpense (OfflineExpense.id e))
  | create => mret ()
  end;;
  (if decide (PendingAction.action action ≠ delete)
   then storage_write
          (bool_decide (write_fails faults action = Some at_saveExpense))
          (saveExpense (OfflineExpense.with_synced true e))
   else mret ());;
  storage_write
    (bool_decide (write_fails faults action = Some at_deletePendingAction))
    (deletePendingAction (PendingAction.id action)).

Definition drain (outcome : PendingAction.t → RemoteOutcome) : M unit :=
  pending ← storage_read (first_read_fails faults) getPendingActions;
  (if client_fails faults then throw "createClient failed" else mret ());;
  for_each pending (λ action, try_catch (sync_action outcome action));;
  remainingPending ← storage_read (last_read_fails faults) getPendingActions;
  set_state (setPendingCount (length remainingPending)).

Definition syncPendingActions (c : SyncClosure)
    (outcome : PendingAction.t → RemoteOutcome) : M unit :=
  if refused c then mret ()
  else
    set_state (setIsSyncing true);;
    try_finally (try_catch (drain outcome)) (set_state (setIsSyncing false)).
End faulty.
End Faulty.

(** ** The reconnect effect ([src/unnamed/part_001], lines 113-128)

    [useEffect(body, [isOnline, isSyncing])] runs [body] after the first
    render and after every render in which [isOnline] or [isSyncing]
    differs from the render of its last run; the cleanup returned by the
    last run, if any, is called first.  The timer set by [setTimeout] is
    an armed closure that a later event fires, unless the cleanup cleared
    it. *)

Module Reconnect.
Import UseOfflineSync React.

(** The effect body for one render: the closure given to [setTimeout],
    if any, and the setters called. *)
Definition effect_body (r : Rendered) : option SyncClosure * list SetState :=
  if isOnline (state r) && wasOffline (state r) && negb (isSyncing (state r))
  then (Some (r_sync r), [setWasOffline false])
  else if negb (isOnline (state r)) then (None, [setWasOffline true])
  else (None, []).

Record Runtime := mkRuntime {
  base : React.Runtime;
  deps : bool * bool;          (* [isOnline, isSyncing] at the last run *)
  timer : option SyncClosure   (* the armed timer, if any *)
}.

(** After the first render and the first run of the effect. *)
Definition start : Runtime :=
  mkRuntime React.start
            (isOnline initial_state, isSyncing initial_state)
            (effect_body mount).1.

Inductive Event :=
  | ev_react (ev : React.Event)  (* an event of the hook, a render included *)
  | ev_timeout.                  (* the armed timer fires *)

Definition step (rt : Runtime) (ev : Event) : Runtime :=
  match ev with
  | ev_react ev_render =>
      let b := React.step (base rt) ev_render in
      let d := (isOnline (state (rendered b)), isSyncing (state (rendered b))) in
      if decide (d = deps rt) then mkRuntime b (deps rt) (timer rt)
      else
        let fx := effect_body (rendered b) in
        mkRuntime (React.mkRuntime (rendered b) (queued b ++ fx.2)
                                   (in_flight b) (executed b))
                  d fx.1
  | ev_react ev => mkRuntime (React.step (base rt) ev) (deps rt) (timer rt)
  | ev_timeout =>
      match timer rt with
      | Some c => mkRuntime (enter c (base rt)) (deps rt) None
      | None => rt
      end
  end.

Definition run (rt : Runtime) (evs : list Event) : Runtime := foldl step rt evs.
End Reconnect.

(** ** More sample data *)

Module Sample2.
Import Sample.

(** The world after offline edits of "e1" (amount 25) and of "e2"
    (amount 40). *)
Definition update_e1 : PendingAction.t :=
  PendingAction.mk "f47ac10b-58cc-4372-a567-0e02b2c3d479" update
    (UseOfflineSync.updated_expense e1 amount_25 "2024-05-03T09:00:01.000Z") 1000.

Definition update_e2 : PendingAction.t :=
  PendingAction.mk "16fd2706-8baf-433b-82eb-8c7fada847da" update
    (UseOfflineSync.updated_expense e2 amount_40 "2024-05-03T09:00:02.000Z") 2000.

Definition edited_both : World :=
  (UseOfflineSync.updateExpense false online_idle "2024-05-03T09:00:02.000Z"
     "16fd2706-8baf-433b-82eb-8c7fada847da" 2000 "e2" amount_40
     (UseOfflineSync.updateExpense false online_idle "2024-05-03T09:00:01.000Z"
        "f47ac10b-58cc-4372-a567-0e02b2c3d479" 1000 "e1" amount_25
        world0).2).2.

(** The request for "e1" throws, every other one succeeds. *)
Definition e1_throws (a : PendingAction.t) : RemoteOutcome :=
  if decide (OfflineExpense.id (PendingAction.expense a) = "e1") then throws
  else resolves_ok.

(** An update that renames the record. *)
Definition rename_to_e9 : PartialExpense.t :=
  PartialExpense.mk (Some "e9") None None None None None None None None None
                    None None None None None.

(** A second version of "e1". *)
Definition e1' : OfflineExpense.t := OfflineExpense.with_synced false e1.
End Sample2.

(** ** Notions used to state the properties of a pass *)

Section pass_notions.
Context (parseInt : string → option Z).

(** The requests one iteration of the loop sends for an action. *)
Definition requests (a : PendingAction.t) : list RemoteCall :=
  match PendingAction.action a with
  | update =>
      [remote_update
         (UseOfflineSync.update_payload parseInt (PendingAction.expense a))
         (OfflineExpense.id (PendingAction.expense a))]
  | delete => [remote_delete (OfflineExpense.id (PendingAction.expense a))]
  | create => []
  end.

(** The iteration for [a] reaches the end of the inner [try]. *)
Definition completes (outcome : PendingAction.t → RemoteOutcome)
    (a : PendingAction.t) : bool :=
  match PendingAction.action a, outcome a with
  | create, _ => true
  | _, throws => false
  | _, _ => true
  end.

(** What an iteration that completes does to the database. *)
Definition settle (a : PendingAction.t) (d : DB) : DB :=
  deletePendingAction (PendingAction.id a)
    (match PendingAction.action a with
     | delete =>
         OfflineStorage.deleteExpense (OfflineExpense.id (PendingAction.expense a)) d
     | _ =>
         saveExpense (OfflineExpense.with_synced true (PendingAction.expense a)) d
     end).

(** The world after one iteration of the loop, and after a run of them. *)
Definition iteration (outcome : PendingAction.t → RemoteOutcome)
    (a : PendingAction.t) (w : World) : World :=
  (try_catch (UseOfflineSync.sync_action parseInt outcome a) w).2.

Definition iterations (outcome : PendingAction.t → RemoteOutcome)
    (l : list PendingAction.t) (w : World) : World :=
  foldl (λ w a, iteration outcome a w) w l.
End pass_notions.

(** * Properties *)

(** ** The order of JavaScript strings *)

Lemma compare_units_antisym (l1 l2 : list N) :
  JSString.compare_units l1 l2 = CompOpp (JSString.compare_units l2 l1).
Proof.
  revert l2. induction l1 as [|x l1 IH]; intros [|y l2]; simpl; try done.
  rewrite (N.compare_antisym x y).
  destruct (N.compare x y); simpl; [apply IH|done..].
Qed.

Lemma JSString_compare_antisym (s1 s2 : string) :
  JSString.compare s1 s2 = CompOpp (JSString.compare s2 s1).
Proof. apply compare_units_antisym. Qed.

(** Code units are not bytes: U+1F600 is the surrogate pair D83D DE00
    and sorts before U+FF5E, although its UTF-8 bytes sort after. *)
Lemma code_unit_order_is_not_byte_order :
  JSString.utf16 "😀" = [0xD83D; 0xDE00]%N
  ∧ JSString.utf16 "～" = [0xFF5E]%N
  ∧ JSString.leb "😀" "～" = true
  ∧ JSString.leb "～" "😀" = false
  ∧ String.leb "～" "😀" = true.
Proof. by vm_compute. Qed.

Lemma JSString_leb_total (s1 s2 : string) :
  JSString.leb s1 s2 = true ∨ JSString.leb s2 s1 = true.
Proof.
  unfold JSString.leb. rewrite (JSString_compare_antisym s2 s1).
  destruct (JSString.compare s1 s2); simpl; auto.
Qed.

(** ** The object store *)

Section store_facts.
Context {V : Type} (key : V → string).

Global Instance key_le_total : Total (ObjectStore.key_le (V:=V)).
Proof.
  intros x y. unfold ObjectStore.key_le.
  destruct (JSString_leb_total x.1 y.1) as [H|H]; rewrite H; simpl; auto.
Qed.

Lemma elem_of_getAll (s : gmap string V) (v : V) :
  v ∈ ObjectStore.getAll s ↔ ∃ k, s !! k = Some v.
Proof.
  unfold ObjectStore.getAll. rewrite list_elem_of_fmap. split.
  - intros [[k v'] [-> Hin]]. exists k.
    rewrite merge_sort_Permutation in Hin.
    by apply elem_of_map_to_list in Hin.
  - intros [k Hk]. exists (k, v). split; [done|].
    rewrite merge_sort_Permutation. by apply elem_of_map_to_list.
Qed.

Lemma length_getAll (s : gmap string V) : length (ObjectStore.getAll s) = size s.
Proof.
  unfold ObjectStore.getAll. rewrite length_fmap, merge_sort_Permutation.
  by rewrite length_map_to_list.
Qed.

Lemma getAll_nil (s : gmap string V) : ObjectStore.getAll s = [] ↔ s = ∅.
Proof.
  rewrite <- length_zero_iff_nil, length_getAll. apply map_size_empty_iff.
Qed.

Lemma store_wf_empty : ObjectStore.wf key ∅.
Proof. intros k v. by rewrite lookup_empty. Qed.

Lemma store_wf_put v s : ObjectStore.wf key s → ObjectStore.wf key (ObjectStore.put key v s).
Proof.
  intros Hwf k x. unfold ObjectStore.put. rewrite lookup_insert.
  case_decide; [naive_solver | apply Hwf].
Qed.

Lemma store_wf_remove k s : ObjectStore.wf key s → ObjectStore.wf key (ObjectStore.remove k s).
Proof.
  intros Hwf j x. unfold ObjectStore.remove. rewrite lookup_delete.
  case_decide; [done | apply Hwf].
Qed.

(** On a well-formed store, searching the listing for a key is the
    lookup of that key. *)
Lemma find_getAll (s : gmap string V) (k : string) :
  ObjectStore.wf key s →
  List.find (λ v, bool_decide (key v = k)) (ObjectStore.getAll s) = s !! k.
Proof.
  intros Hwf.
  destruct (List.find _ (ObjectStore.getAll s)) as [v|] eqn:Hf.
  - apply find_some in Hf as [Hin Hk].
    apply bool_decide_eq_true in Hk.
    apply list_elem_of_In, elem_of_getAll in Hin as [j Hj].
    pose proof (Hwf _ _ Hj). by simplify_eq.
  - destruct (s !! k) as [v|] eqn:Hk; [|done].
    exfalso. pose proof (find_none _ _ Hf v) as Hn.
    rewrite bool_decide_eq_false in Hn. apply Hn.
    + apply list_elem_of_In, elem_of_getAll. eauto.
    + by apply Hwf in Hk.
Qed.

Lemma put_put (v : V) (s : gmap string V) :
  ObjectStore.put key v (ObjectStore.put key v s) = ObjectStore.put key v s.
Proof. unfold ObjectStore.put. apply insert_insert_eq. Qed.

Lemma lookup_put_eq (v : V) (s : gmap string V) :
  ObjectStore.put key v s !! key v = Some v.
Proof. unfold ObjectStore.put. apply lookup_insert_eq. Qed.

Lemma lookup_put_at (v : V) (s : gmap string V) (k : string) :
  key v = k → ObjectStore.put key v s !! k = Some v.
Proof. intros <-. unfold ObjectStore.put. apply lookup_insert_eq. Qed.

Lemma lookup_put_ne (v : V) (s : gmap string V) (k : string) :
  k ≠ key v → ObjectStore.put key v s !! k = s !! k.
Proof. intros. unfold ObjectStore.put. by apply lookup_insert_ne. Qed.



(** The listing is in ascending key order. *)
Lemma getAll_sorted (s : gmap string V) :
  ObjectStore.wf key s →
  Sorted (λ x y, Is_true (JSString.leb (key x) (key y))) (ObjectStore.getAll s).
Proof.
  intros Hwf. unfold ObjectStore.getAll.
  pose proof (Sorted_merge_sort (ObjectStore.key_le (V:=V)) (map_to_list s)) as Hs.
  assert (Hall : Forall (λ p, key p.2 = p.1)
                   (merge_sort (ObjectStore.key_le (V:=V)) (map_to_list s))).
  { apply Forall_forall. intros [k v] Hin. rewrite merge_sort_Permutation in Hin.
    apply elem_of_map_to_list in Hin. by apply Hwf. }
  induction Hs as [|[k v] l Hl IH Hhd]; [constructor|].
  apply Forall_cons in Hall as [Hk Hall]. simpl in *.
  constructor; [by apply IH|].
  destruct Hhd as [|[k' v'] l' Hle]; [constructor|].
  apply Forall_cons in Hall as [Hk' _]. simpl in *.
  constructor. unfold ObjectStore.key_le in Hle. simpl in *. by rewrite Hk, Hk'.
Qed.
End store_facts.

(** ** The storage class *)

Lemma wf_empty : OfflineStorage.wf OfflineStorage.empty.
Proof. split; apply store_wf_empty. Qed.

Lemma wf_saveExpense e db : OfflineStorage.wf db → OfflineStorage.wf (saveExpense e db).
Proof. intros [??]. split; [by apply store_wf_put | done]. Qed.

Lemma wf_deleteExpense k db :
  OfflineStorage.wf db → OfflineStorage.wf (OfflineStorage.deleteExpense k db).
Proof. intros [??]. split; [by apply store_wf_remove | done]. Qed.

Lemma wf_addPendingAction a db :
  OfflineStorage.wf db → OfflineStorage.wf (addPendingAction a db).
Proof. intros [??]. split; [done | by apply store_wf_put]. Qed.

Lemma wf_deletePendingAction k db :
  OfflineStorage.wf db → OfflineStorage.wf (deletePendingAction k db).
Proof. intros [??]. split; [done | by apply store_wf_remove]. Qed.

Lemma saveMultipleExpenses_cons e l db :
  saveMultipleExpenses (e :: l) db = saveMultipleExpenses l (saveExpense e db).
Proof. done. Qed.

Lemma wf_saveMultipleExpenses l db :
  OfflineStorage.wf db → OfflineStorage.wf (saveMultipleExpenses l db).
Proof.
  revert db. induction l as [|e l IH]; intros db Hwf; [done|].
  rewrite saveMultipleExpenses_cons. by apply IH, wf_saveExpense.
Qed.

Lemma saveExpense_twice (r : OfflineExpense.t) (db : DB) :
  saveExpense r (saveExpense r db) = saveExpense r db.
Proof. unfold saveExpense. simpl. by rewrite put_put. Qed.


Lemma saveMultipleExpenses_pending (l : list OfflineExpense.t) (db : DB) :
  pending (saveMultipleExpenses l db) = pending db.
Proof. done. Qed.

Lemma saveMultipleExpenses_other (l : list OfflineExpense.t) (db : DB) (k : string) :
  (∀ e, e ∈ l → OfflineExpense.id e ≠ k) →
  expenses (saveMultipleExpenses l db) !! k = expenses db !! k.
Proof.
  revert db. induction l as [|e l IH]; intros db Hl; [done|].
  rewrite saveMultipleExpenses_cons, IH.
  - simpl. apply lookup_put_ne. intros ->. by apply (Hl e); [left|].
  - intros x Hx. apply Hl. by right.
Qed.

Lemma getAllExpenses_unique (db : DB) (x y : OfflineExpense.t) :
  OfflineStorage.wf db →
  x ∈ getAllExpenses db → y ∈ getAllExpenses db →
  OfflineExpense.id x = OfflineExpense.id y → x = y.
Proof.
  intros [Hwf _] Hx Hy Heq.
  apply elem_of_getAll in Hx as [kx Hx].
  apply elem_of_getAll in Hy as [ky Hy].
  pose proof (Hwf _ _ Hx). pose proof (Hwf _ _ Hy). simplify_eq. congruence.
Qed.

(** C8.  [saveExpense] (the spec's putRecord) is an idempotent
    insert-or-replace keyed by [id]: saving a record twice is the same as
    saving it once; afterwards the record read back under its id is the
    one saved, whatever was stored there before, and it is the only
    listed record with that id; every other key of the expenses store and
    the whole pending store are as before. *)
Theorem saveExpense_idempotent_replace (r : OfflineExpense.t) (db : DB) :
  saveExpense r (saveExpense r db) = saveExpense r db
  ∧ expenses (saveExpense r db) !! OfflineExpense.id r = Some r
  ∧ r ∈ getAllExpenses (saveExpense r db)
  ∧ (∀ k, k ≠ OfflineExpense.id r →
          expenses (saveExpense r db) !! k = expenses db !! k)
  ∧ pending (saveExpense r db) = pending db
  ∧ (OfflineStorage.wf db →
     ∀ x, x ∈ getAllExpenses (saveExpense r db) →
          OfflineExpense.id x = OfflineExpense.id r → x = r).
Proof.
  split_and!.
  - apply saveExpense_twice.
  - apply lookup_put_eq.
  - apply elem_of_getAll. eexists. apply lookup_put_eq.
  - intros k Hk. by apply lookup_put_ne.
  - done.
  - intros Hwf x Hx Hid.
    eapply (getAllExpenses_unique (saveExpense r db));
      [by apply wf_saveExpense | done | | done].
    apply elem_of_getAll. eexists. apply lookup_put_eq.
Qed.

(** ** One pass of [syncPendingActions] *)

Section pass.
Context (parseInt : string → option Z).
Abbreviation sync_action := (UseOfflineSync.sync_action parseInt).
Abbreviation drain := (UseOfflineSync.drain parseInt).
Abbreviation syncPendingActions := (UseOfflineSync.syncPendingActions parseInt).
Abbreviation requests := (requests parseInt).
Abbreviation iteration := (iteration parseInt).
Abbreviation iterations := (iterations parseInt).
Implicit Types (outcome : PendingAction.t → RemoteOutcome)
               (a : PendingAction.t) (w : World).

Lemma iteration_spec outcome a w :
  iteration outcome a w =
  mkWorld (if completes outcome a then settle a (db w) else db w)
          (calls w ++ requests a) (state_updates w) (spawned w).
Proof.
  unfold iteration, try_catch, sync_action, completes, settle, requests.
  destruct w as [d cs us sp], a as [k [] e ts]; simpl;
    unfold mbind, M_bind, write_db, await_remote, mret, M_ret; simpl.
  - by rewrite app_nil_r.
  - by destruct (outcome _).
  - by destruct (outcome _).
Qed.

Lemma iteration_returns outcome a w :
  try_catch (sync_action outcome a) w = (inr (), iteration outcome a w).
Proof.
  unfold iteration, try_catch.
  destruct (sync_action outcome a w) as [[?|[]] ?]; done.
Qed.

Lemma for_each_iterations outcome l w :
  for_each l (λ a, try_catch (sync_action outcome a)) w
  = (inr (), iterations outcome l w).
Proof.
  revert w. induction l as [|a l IH]; intros w; [done|].
  simpl. unfold mbind, M_bind. rewrite iteration_returns. apply IH.
Qed.

Lemma iterations_cons outcome a l w :
  iterations outcome (a :: l) w = iterations outcome l (iteration outcome a w).
Proof. done. Qed.

Lemma iterations_app outcome l1 l2 w :
  iterations outcome (l1 ++ l2) w = iterations outcome l2 (iterations outcome l1 w).
Proof. apply foldl_app. Qed.

Lemma calls_iterations outcome l w :
  calls (iterations outcome l w) = calls w ++ flat_map requests l.
Proof.
  revert w. induction l as [|a l IH]; intros w.
  - simpl. by rewrite app_nil_r.
  - rewrite iterations_cons, IH, iteration_spec. simpl. by rewrite <- app_assoc.
Qed.

Lemma state_updates_iterations outcome l w :
  state_updates (iterations outcome l w) = state_updates w
  ∧ spawned (iterations outcome l w) = spawned w.
Proof.
  revert w. induction l as [|a l IH]; intros w; [done|].
  rewrite iterations_cons. destruct (IH (iteration outcome a w)) as [-> ->].
  by rewrite iteration_spec.
Qed.

Lemma pending_settle a d k :
  pending (settle a d) !! k =
  if decide (PendingAction.id a = k) then None else pending d !! k.
Proof.
  unfold settle, deletePendingAction, ObjectStore.remove. simpl.
  rewrite lookup_delete. by destruct (PendingAction.action a).
Qed.

Lemma expenses_settle_ne a d k :
  OfflineExpense.id (PendingAction.expense a) ≠ k →
  expenses (settle a d) !! k = expenses d !! k.
Proof.
  intros Hne. unfold settle. destruct (PendingAction.action a); simpl.
  - by rewrite lookup_put_ne.
  - by rewrite lookup_put_ne.
  - unfold ObjectStore.remove. by rewrite lookup_delete_ne.
Qed.

(** A queue entry that is gone stays gone: a pass never enqueues. *)
Lemma pending_iterations_none outcome l w k :
  pending (db w) !! k = None → pending (db (iterations outcome l w)) !! k = None.
Proof.
  revert w. induction l as [|a l IH]; intros w Hk; [done|].
  rewrite iterations_cons. apply IH. rewrite iteration_spec. simpl.
  destruct (completes outcome a); [|done].
  rewrite pending_settle. by case_decide.
Qed.

Lemma pending_iterations_removed outcome l w a :
  a ∈ l → completes outcome a = true →
  pending (db (iterations outcome l w)) !! PendingAction.id a = None.
Proof.
  revert w. induction l as [|b l IH]; intros w Hin Hc; [by inversion Hin|].
  rewrite iterations_cons. apply elem_of_cons in Hin as [->|Hin]; [|by apply IH].
  apply pending_iterations_none. rewrite iteration_spec. simpl. rewrite Hc.
  rewrite pending_settle. by case_decide.
Qed.

Lemma pending_iterations_kept outcome l w k :
  (∀ a, a ∈ l → completes outcome a = true → PendingAction.id a ≠ k) →
  pending (db (iterations outcome l w)) !! k = pending (db w) !! k.
Proof.
  revert w. induction l as [|b l IH]; intros w Hl; [done|].
  rewrite iterations_cons, IH.
  - rewrite iteration_spec. simpl.
    destruct (completes outcome b) eqn:Hc; [|done].
    rewrite pending_settle. case_decide; [|done].
    exfalso. by apply (Hl b); [left| |].
  - intros a Ha. apply Hl. by right.
Qed.

Lemma expenses_iterations_kept outcome l w k :
  (∀ a, a ∈ l → completes outcome a = true →
        OfflineExpense.id (PendingAction.expense a) ≠ k) →
  expenses (db (iterations outcome l w)) !! k = expenses (db w) !! k.
Proof.
  revert w. induction l as [|b l IH]; intros w Hl; [done|].
  rewrite iterations_cons, IH.
  - rewrite iteration_spec. simpl.
    destruct (completes outcome b) eqn:Hc; [|done].
    apply expenses_settle_ne. by apply Hl; [left|].
  - intros a Ha. apply Hl. by right.
Qed.

(** The pass as a whole, once past the guard. *)
Lemma drain_spec outcome w :
  drain outcome w =
  (inr (),
   let w' := iterations outcome (getPendingActions (db w)) w in
   mkWorld (db w') (calls w')
           (state_updates w' ++ [setPendingCount (length (getPendingActions (db w')))])
           (spawned w')).
Proof.
  unfold drain, UseOfflineSync.drain, mbind, M_bind, read_db. simpl.
  by rewrite for_each_iterations.
Qed.

Lemma syncPendingActions_spec c outcome w :
  UseOfflineSync.refused c = false →
  syncPendingActions c outcome w =
  (inr (),
   let w' := iterations outcome (getPendingActions (db w)) w in
   mkWorld (db w') (calls w')
           (state_updates w ++
              [setIsSyncing true;
               setPendingCount (length (getPendingActions (db w')));
               setIsSyncing false])
           (spawned w')).
Proof.
  intros Hc. unfold syncPendingActions, UseOfflineSync.syncPendingActions.
  rewrite Hc. unfold mbind, M_bind, set_state, try_finally, try_catch. simpl.
  rewrite drain_spec. simpl.
  destruct (state_updates_iterations outcome
              (getPendingActions (db w))
              (mkWorld (db w) (calls w) (state_updates w ++ [setIsSyncing true]) (spawned w)))
    as [Hu Hs].
  assert (Hdb : ∀ l w1 w2, db w1 = db w2 → calls w1 = calls w2 → spawned w1 = spawned w2 →
            db (iterations outcome l w1) = db (iterations outcome l w2) ∧
            calls (iterations outcome l w1) = calls (iterations outcome l w2) ∧
            spawned (iterations outcome l w1) = spawned (iterations outcome l w2)).
  { clear. induction l as [|a l IH]; intros w1 w2 H1 H2 H3; [done|].
    rewrite !iterations_cons.
    apply IH; rewrite !iteration_spec; simpl; by rewrite ?H1, ?H2, ?H3. }
  destruct (Hdb (getPendingActions (db w))
              (mkWorld (db w) (calls w) (state_updates w ++ [setIsSyncing true]) (spawned w))
              w eq_refl eq_refl eq_refl) as (-> & -> & ->).
  simpl in Hu. rewrite Hu. by rewrite <- !app_assoc.
Qed.

(** The guard: a refused call returns at once and touches nothing. *)
Lemma syncPendingActions_refused c outcome w :
  UseOfflineSync.refused c = true → syncPendingActions c outcome w = (inr (), w).
Proof.
  intros Hc. unfold syncPendingActions, UseOfflineSync.syncPendingActions.
  by rewrite Hc.
Qed.

(** ** Well-formedness is kept by a pass, and the queue lists no action twice *)

Lemma wf_settle a d : OfflineStorage.wf d → OfflineStorage.wf (settle a d).
Proof.
  intros Hwf. unfold settle. apply wf_deletePendingAction.
  destruct (PendingAction.action a);
    first [by apply wf_saveExpense | by apply wf_deleteExpense].
Qed.

Lemma wf_iterations outcome l w :
  OfflineStorage.wf (db w) → OfflineStorage.wf (db (iterations outcome l w)).
Proof.
  revert w. induction l as [|a l IH]; intros w Hwf; [done|].
  rewrite iterations_cons. apply IH. rewrite iteration_spec. simpl.
  destruct (completes outcome a); [by apply wf_settle | done].
Qed.

Lemma getAll_NoDup {V} (key : V → string) (s : gmap string V) :
  ObjectStore.wf key s → NoDup (ObjectStore.getAll s).
Proof.
  intros Hwf. unfold ObjectStore.getAll. apply NoDup_fmap_2_strong.
  - intros [k1 v1] [k2 v2] H1 H2 Heq. simpl in Heq. subst v2.
    rewrite merge_sort_Permutation in H1, H2.
    apply elem_of_map_to_list in H1, H2.
    apply Hwf in H1, H2. congruence.
  - rewrite merge_sort_Permutation. apply NoDup_map_to_list.
Qed.

Lemma getPendingActions_lookup (d : DB) (a : PendingAction.t) :
  OfflineStorage.wf d →
  a ∈ getPendingActions d ↔ pending d !! PendingAction.id a = Some a.
Proof.
  intros [_ Hwf]. unfold getPendingActions. rewrite elem_of_getAll.
  split; [|by eauto]. intros [k Hk]. pose proof (Hwf _ _ Hk). by subst.
Qed.

Lemma getAllExpenses_lookup (d : DB) (e : OfflineExpense.t) :
  OfflineStorage.wf d →
  e ∈ getAllExpenses d ↔ expenses d !! OfflineExpense.id e = Some e.
Proof.
  intros [Hwf _]. unfold getAllExpenses. rewrite elem_of_getAll.
  split; [|by eauto]. intros [k Hk]. pose proof (Hwf _ _ Hk). by subst.
Qed.

(** The last iteration that completes for a record decides what the
    record is at the end of the loop. *)
Lemma expenses_iterations_last outcome l1 a l2 w :
  completes outcome a = true →
  PendingAction.action a ≠ delete →
  (∀ b, b ∈ l2 → completes outcome b = true →
        OfflineExpense.id (PendingAction.expense b)
        ≠ OfflineExpense.id (PendingAction.expense a)) →
  expenses (db (iterations outcome (l1 ++ a :: l2) w))
    !! OfflineExpense.id (PendingAction.expense a)
  = Some (OfflineExpense.with_synced true (PendingAction.expense a)).
Proof.
  intros Hc Hk Hl2.
  rewrite iterations_app, iterations_cons, expenses_iterations_kept by done.
  rewrite iteration_spec. simpl. rewrite Hc. unfold settle. simpl.
  destruct (PendingAction.action a); [| |done];
    exact (lookup_put_eq OfflineExpense.id
             (OfflineExpense.with_synced true (PendingAction.expense a)) _).
Qed.

(** ** What a pass leaves behind *)

(** An action whose request throws: the iteration is abandoned in the
    [catch], the database is as it was and the loop goes on. *)
Lemma thrown_action_untouched outcome (a : PendingAction.t) (w : World) :
  PendingAction.action a ≠ create → outcome a = throws →
  try_catch (sync_action outcome a) w
  = (inr (), mkWorld (db w) (calls w ++ requests a) (state_updates w) (spawned w)).
Proof.
  intros Hk Ho. rewrite iteration_returns, iteration_spec.
  unfold completes. rewrite Ho. by destruct (PendingAction.action a).
Qed.

(** An action whose request resolves, with or without an [error] in the
    awaited value, is settled. *)
Lemma resolved_action_settled outcome (a : PendingAction.t) (w : World) :
  outcome a ≠ throws →
  try_catch (sync_action outcome a) w
  = (inr (), mkWorld (settle a (db w)) (calls w ++ requests a)
                     (state_updates w) (spawned w)).
Proof.
  intros Ho. rewrite iteration_returns, iteration_spec.
  unfold completes. by destruct (PendingAction.action a), (outcome a).
Qed.

(** X11.  Isolation of a thrown failure (P3 for requests that throw): when the
    request of [A] throws and [B], the only queued action for its record
    that completes, does not throw and is not a delete, the pass leaves
    [A] queued as it was, removes [B] and leaves [B]'s record marked
    synced. *)
Lemma thrown_failure_is_isolated c outcome (w : World) (A B : PendingAction.t) :
  OfflineStorage.wf (db w) →
  UseOfflineSync.refused c = false →
  A ∈ getPendingActions (db w) → B ∈ getPendingActions (db w) →
  completes outcome A = false →
  completes outcome B = true →
  PendingAction.action B ≠ delete →
  (∀ b, b ∈ getPendingActions (db w) → completes outcome b = true →
        OfflineExpense.id (PendingAction.expense b)
        = OfflineExpense.id (PendingAction.expense B) → b = B) →
  ∃ w', syncPendingActions c outcome w = (inr (), w')
    ∧ pending (db w') !! PendingAction.id A = Some A
    ∧ pending (db w') !! PendingAction.id B = None
    ∧ expenses (db w') !! OfflineExpense.id (PendingAction.expense B)
      = Some (OfflineExpense.with_synced true (PendingAction.expense B)).
Proof.
  intros Hwf Hc HA HB HcA HcB HkB Honly.
  eexists. split; [by apply syncPendingActions_spec|]. simpl. split_and!.
  - rewrite pending_iterations_kept; [by apply getPendingActions_lookup|].
    intros a Ha Hca Hid.
    assert (a = A); [|congruence].
    apply getPendingActions_lookup in Ha, HA; [|done..]. congruence.
  - by apply pending_iterations_removed.
  - pose proof (getAll_NoDup PendingAction.id (pending (db w)) (proj2 Hwf)) as Hnd.
    fold (getPendingActions (db w)) in Hnd.
    destruct (list_elem_of_split _ _ HB) as (l1 & l2 & Hl).
    rewrite Hl in Hnd |- *. apply expenses_iterations_last; [done..|].
    intros b Hb Hcb Hid.
    assert (b = B) as ->.
    { apply Honly; [|done..]. rewrite Hl. apply elem_of_app. right. by right. }
    apply NoDup_app in Hnd as (_ & _ & Hnd). apply NoDup_cons in Hnd as [Hn _].
    done.
Qed.

(** C7.  Replay is idempotent: a pass that is not refused and in which
    the request of every queued action succeeds sends each action's
    request once and leaves the queue empty; any pass run next, with no
    action enqueued in between, sends no request and changes nothing in
    the database. *)
Theorem drain_twice_sends_nothing_new c outcome (w : World) :
  OfflineStorage.wf (db w) →
  UseOfflineSync.refused c = false →
  (∀ a, a ∈ getPendingActions (db w) → outcome a = resolves_ok) →
  ∃ w1, syncPendingActions c outcome w = (inr (), w1)
    ∧ getPendingActions (db w1) = []
    ∧ calls w1 = calls w ++ flat_map requests (getPendingActions (db w))
    ∧ ∀ c2 outcome2, ∃ w2,
        syncPendingActions c2 outcome2 w1 = (inr (), w2)
        ∧ calls w2 = calls w1 ∧ db w2 = db w1.
Proof.
  intros Hwf Hc Hok.
  eexists. split; [by apply syncPendingActions_spec|]. simpl.
  assert (Hempty : getPendingActions
            (db (iterations outcome (getPendingActions (db w)) w)) = []).
  { apply getAll_nil, map_eq. intros k. rewrite lookup_empty.
    destruct (pending (db w) !! k) as [a|] eqn:Hk;
      [|by apply pending_iterations_none].
    pose proof (proj2 Hwf _ _ Hk) as <-.
    apply getPendingActions_lookup in Hk; [|done].
    apply pending_iterations_removed; [done|].
    unfold completes. rewrite (Hok a Hk). by destruct (PendingAction.action a). }
  split_and!; [done | apply calls_iterations |].
  intros c2 outcome2. destruct (UseOfflineSync.refused c2) eqn:Hc2.
  - eexists. split; [by apply syncPendingActions_refused|]. done.
  - eexists. split; [by apply syncPendingActions_spec|]. simpl.
    by rewrite Hempty.
Qed.

(** C9.  A queued [create] action.  In whatever state the loop reaches
    it, its iteration sends no request, stores under the snapshot's id
    the snapshot with [synced] true and every other field as the action
    holds it, removes the action from the queue, and touches no other
    record and no other queued action.  After a pass that is not refused
    the action is no longer queued; the record is that snapshot marked
    synced when no other completing action of the queue is about the same
    record; and a queue of [create] actions only makes the pass send no
    request at all. *)
Theorem create_action_synced_without_remote c outcome (w : World)
    (a : PendingAction.t) :
  OfflineStorage.wf (db w) →
  a ∈ getPendingActions (db w) →
  PendingAction.action a = create →
  UseOfflineSync.refused c = false →
  (∀ w0, ∃ w1,
     try_catch (sync_action outcome a) w0 = (inr (), w1)
     ∧ calls w1 = calls w0
     ∧ expenses (db w1) !! OfflineExpense.id (PendingAction.expense a)
       = Some (OfflineExpense.mk
              (OfflineExpense.id (PendingAction.expense a))
              (OfflineExpense.user_id (PendingAction.expense a))
              (OfflineExpense.amount (PendingAction.expense a))
              (OfflineExpense.description (PendingAction.expense a))
              (OfflineExpense.date (PendingAction.expense a))
              (OfflineExpense.currency (PendingAction.expense a))
              (OfflineExpense.category_id (PendingAction.expense a))
              (OfflineExpense.category (PendingAction.expense a))
              (OfflineExpense.payment_method (PendingAction.expense a))
              (OfflineExpense.notes (PendingAction.expense a))
              (OfflineExpense.is_excluded (PendingAction.expense a))
              (OfflineExpense.source (PendingAction.expense a)) true
              (OfflineExpense.created_at (PendingAction.expense a))
              (OfflineExpense.updated_at (PendingAction.expense a)))
     ∧ (∀ k, k ≠ OfflineExpense.id (PendingAction.expense a) →
             expenses (db w1) !! k = expenses (db w0) !! k)
     ∧ pending (db w1) !! PendingAction.id a = None
     ∧ (∀ k, k ≠ PendingAction.id a →
             pending (db w1) !! k = pending (db w0) !! k))
  ∧ ∃ w', syncPendingActions c outcome w = (inr (), w')
      ∧ pending (db w') !! PendingAction.id a = None
      ∧ (a ∉ getPendingActions (db w'))
      ∧ ((∀ b, b ∈ getPendingActions (db w) → completes outcome b = true →
               OfflineExpense.id (PendingAction.expense b)
               = OfflineExpense.id (PendingAction.expense a) → b = a) →
         expenses (db w') !! OfflineExpense.id (PendingAction.expense a)
         = Some (OfflineExpense.mk
                 (OfflineExpense.id (PendingAction.expense a))
                 (OfflineExpense.user_id (PendingAction.expense a))
                 (OfflineExpense.amount (PendingAction.expense a))
                 (OfflineExpense.description (PendingAction.expense a))
                 (OfflineExpense.date (PendingAction.expense a))
                 (OfflineExpense.currency (PendingAction.expense a))
                 (OfflineExpense.category_id (PendingAction.expense a))
                 (OfflineExpense.category (PendingAction.expense a))
                 (OfflineExpense.payment_method (PendingAction.expense a))
                 (OfflineExpense.notes (PendingAction.expense a))
                 (OfflineExpense.is_excluded (PendingAction.expense a))
                 (OfflineExpense.source (PendingAction.expense a)) true
                 (OfflineExpense.created_at (PendingAction.expense a))
                 (OfflineExpense.updated_at (PendingAction.expense a))))
      ∧ ((∀ b, b ∈ getPendingActions (db w) → PendingAction.action b = create) →
         calls w' = calls w).
Proof.
  intros Hwf Ha Hk Hc.
  assert (Hreq : requests a = []) by (unfold requests; by rewrite Hk).
  assert (Hcomp : completes outcome a = true) by (unfold completes; by rewrite Hk).
  split.
  - intros w0. eexists. split; [apply iteration_returns|].
    rewrite iteration_spec, Hcomp, Hreq, app_nil_r. unfold settle. rewrite Hk.
    simpl. split_and!.
    + done.
    + exact (lookup_put_eq OfflineExpense.id
               (OfflineExpense.with_synced true (PendingAction.expense a)) _).
    + intros k Hne. by rewrite lookup_put_ne.
    + apply lookup_delete_eq.
    + intros k Hne. by apply lookup_delete_ne.
  - eexists. split; [by apply syncPendingActions_spec|]. simpl.
    assert (Hgone : pending (db (iterations outcome (getPendingActions (db w)) w))
                      !! PendingAction.id a = None).
    { by apply pending_iterations_removed. }
    split_and!; [done| | |].
    + rewrite getPendingActions_lookup by (by apply wf_iterations).
      by rewrite Hgone.
    + intros Honly.
      pose proof (getAll_NoDup PendingAction.id (pending (db w)) (proj2 Hwf)) as Hnd.
      fold (getPendingActions (db w)) in Hnd.
      destruct (list_elem_of_split _ _ Ha) as (l1 & l2 & Hl).
      rewrite Hl in Hnd |- *.
      rewrite expenses_iterations_last; [done|done|by rewrite Hk|].
      intros b Hb Hcb Hid.
      assert (b = a) as ->.
      { apply Honly; [|done..]. rewrite Hl. apply elem_of_app. right. by right. }
      apply NoDup_app in Hnd as (_ & _ & Hnd). apply NoDup_cons in Hnd as [Hn _].
      done.
    + intros Hall. rewrite calls_iterations.
      assert (Hnone : ∀ l, (∀ b, b ∈ l → PendingAction.action b = create) →
                           flat_map requests l = []).
      { induction l as [|b l IH]; intros Hl; [done|]. simpl.
        rewrite IH by (intros x Hx; apply Hl; by right).
        unfold requests. rewrite (Hl b); [done|by left]. }
      by rewrite Hnone, app_nil_r.
Qed.
End pass.

(** ** Local mutations: [updateExpense] and [deleteExpense] of the hook *)

Section mutations.
Implicit Types (w : World) (existing : OfflineExpense.t)
               (updates : PartialExpense.t).

Lemma find_expense_lookup (d : DB) (id : string) :
  OfflineStorage.wf d →
  UseOfflineSync.find_expense id (getAllExpenses d) = expenses d !! id.
Proof. intros [Hwf _]. by apply find_getAll. Qed.

Lemma find_expense_None (l : list OfflineExpense.t) (id : string) :
  (∀ e, e ∈ l → OfflineExpense.id e ≠ id) → UseOfflineSync.find_expense id l = None.
Proof.
  intros Hl. unfold UseOfflineSync.find_expense.
  destruct (List.find _ l) as [e|] eqn:Hf; [|done].
  apply find_some in Hf as [Hin Hid]. apply bool_decide_eq_true in Hid.
  by apply list_elem_of_In, Hl in Hin.
Qed.

Lemma updateExpense_found isOnline sync now uuid ms id updates w existing :
  UseOfflineSync.find_expense id (getAllExpenses (db w)) = Some existing →
  UseOfflineSync.updateExpense isOnline sync now uuid ms id updates w =
  (inr (UseOfflineSync.updated_expense existing updates now),
   let d' :=
     addPendingAction
       (PendingAction.mk uuid update
          (UseOfflineSync.updated_expense existing updates now) ms)
       (saveExpense (UseOfflineSync.updated_expense existing updates now) (db w)) in
   mkWorld d' (calls w)
           (state_updates w ++ [setPendingCount (length (getPendingActions d'))]
              ++ if isOnline && negb (UseOfflineSync.refused sync)
                 then [setIsSyncing true] else [])
           (spawned w ++ if isOnline then [sync] else [])).
Proof.
  intros Hf. unfold UseOfflineSync.updateExpense, mbind, M_bind, read_db.
  simpl. rewrite Hf. unfold write_db, set_state, UseOfflineSync.spawn. simpl.
  destruct isOnline; simpl; [|by rewrite !app_nil_r].
  rewrite <- app_assoc. by destruct (UseOfflineSync.refused sync).
Qed.

Lemma deleteExpense_found isOnline sync uuid ms id w existing :
  UseOfflineSync.find_expense id (getAllExpenses (db w)) = Some existing →
  UseOfflineSync.deleteExpense isOnline sync uuid ms id w =
  (inr (),
   let d' := addPendingAction (PendingAction.mk uuid delete existing ms) (db w) in
   mkWorld d' (calls w)
           (state_updates w ++ [setPendingCount (length (getPendingActions d'))]
              ++ if isOnline && negb (UseOfflineSync.refused sync)
                 then [setIsSyncing true] else [])
           (spawned w ++ if isOnline then [sync] else [])).
Proof.
  intros Hf. unfold UseOfflineSync.deleteExpense, mbind, M_bind, read_db.
  simpl. rewrite Hf. unfold write_db, set_state, UseOfflineSync.spawn. simpl.
  destruct isOnline; simpl; [|by rewrite !app_nil_r].
  rewrite <- app_assoc. by destruct (UseOfflineSync.refused sync).
Qed.

(** C4.  Optimistic visibility: for a cached record stored under [id],
    [updateExpense id updates] returns the merged record: every field is
    the one given in [updates] when it is given and the stored one
    otherwise, except that [synced] is false and [updated_at] is the
    current time.  When it returns, that record is listed by
    [getAllExpenses] and stored under its own id: under [id], replacing
    the stored record, when [updates] carry no id or carry [id]; under the
    other id, the record under [id] being left as it was, when [updates]
    carry another id.  An [update] action holding the merged record is
    queued under the new action id, and no request has been sent. *)
Theorem updateExpense_optimistic isOnline sync now uuid ms id updates w existing :
  OfflineStorage.wf (db w) →
  expenses (db w) !! id = Some existing →
  ∃ w' merged,
    UseOfflineSync.updateExpense isOnline sync now uuid ms id updates w
    = (inr merged, w')
    ∧ merged
      = OfflineExpense.mk
          (default (OfflineExpense.id existing) (PartialExpense.id updates))
          (default (OfflineExpense.user_id existing) (PartialExpense.user_id updates))
          (default (OfflineExpense.amount existing) (PartialExpense.amount updates))
          (default (OfflineExpense.description existing)
                   (PartialExpense.description updates))
          (default (OfflineExpense.date existing) (PartialExpense.date updates))
          (default (OfflineExpense.currency existing) (PartialExpense.currency updates))
          (default (OfflineExpense.category_id existing)
                   (PartialExpense.category_id updates))
          (default (OfflineExpense.category existing) (PartialExpense.category updates))
          (default (OfflineExpense.payment_method existing)
                   (PartialExpense.payment_method updates))
          (default (OfflineExpense.notes existing) (PartialExpense.notes updates))
          (default (OfflineExpense.is_excluded existing)
                   (PartialExpense.is_excluded updates))
          (default (OfflineExpense.source existing) (PartialExpense.source updates))
          false
          (default (OfflineExpense.created_at existing)
                   (PartialExpense.created_at updates))
          now
    ∧ merged ∈ getAllExpenses (db w')
    ∧ expenses (db w') !! OfflineExpense.id merged = Some merged
    ∧ (PartialExpense.id updates = None ∨ PartialExpense.id updates = Some id →
       expenses (db w') !! id = Some merged)
    ∧ (∀ id', PartialExpense.id updates = Some id' → id' ≠ id →
         expenses (db w') !! id = Some existing
         ∧ expenses (db w') !! id' = Some merged)
    ∧ PendingAction.mk uuid update merged ms ∈ getPendingActions (db w')
    ∧ pending (db w') !! uuid = Some (PendingAction.mk uuid update merged ms)
    ∧ calls w' = calls w.
Proof.
  intros Hwf Hex.
  assert (Hid : OfflineExpense.id existing = id) by by apply (proj1 Hwf).
  eexists _, _. split.
  { apply updateExpense_found. by rewrite find_expense_lookup. }
  simpl. split_and!.
  - done.
  - apply elem_of_getAll. eexists.
    exact (lookup_put_eq OfflineExpense.id _ _).
  - exact (lookup_put_eq OfflineExpense.id
             (UseOfflineSync.updated_expense existing updates now) _).
  - intros Hu. apply lookup_put_at. simpl.
    destruct Hu as [-> | ->]; simpl; congruence.
  - intros id' Hu Hne. split.
    + rewrite lookup_put_ne; [done|]. simpl. rewrite Hu. simpl. congruence.
    + apply lookup_put_at. simpl. by rewrite Hu.
  - apply elem_of_getAll. eexists.
    exact (lookup_put_eq PendingAction.id _ _).
  - exact (lookup_put_eq PendingAction.id
             (PendingAction.mk uuid update
                (UseOfflineSync.updated_expense existing updates now) ms) _).
  - done.
Qed.

(** C10.  Whatever [updates] holds, [synced: true] and an [updated_at]
    included, the record that [updateExpense] returns for an existing
    record has [synced] false and [updated_at] equal to the current time,
    and it is that record which is stored and which the queued action
    holds. *)
Theorem updateExpense_forces_unsynced isOnline sync now uuid ms id updates w existing :
  UseOfflineSync.find_expense id (getAllExpenses (db w)) = Some existing →
  ∃ w' e',
    UseOfflineSync.updateExpense isOnline sync now uuid ms id updates w = (inr e', w')
    ∧ OfflineExpense.synced e' = false
    ∧ OfflineExpense.updated_at e' = now
    ∧ expenses (db w') !! OfflineExpense.id e' = Some e'
    ∧ pending (db w') !! uuid = Some (PendingAction.mk uuid update e' ms).
Proof.
  intros Hf. eexists _, _. split; [by apply updateExpense_found|].
  simpl. split_and!; try done.
  - exact (lookup_put_eq OfflineExpense.id _ _).
  - exact (lookup_put_eq PendingAction.id
             (PendingAction.mk uuid update
                (UseOfflineSync.updated_expense existing updates now) ms) _).
Qed.

(** C6.  For an id that no cached record has, [updateExpense] and
    [deleteExpense] throw ["Expense not found"] and leave the world as it
    was: nothing stored, nothing queued, no state setter called, no pass
    started. *)
Theorem mutation_of_missing_record_rejects
    isOnline sync now uuid ms id updates w :
  (∀ e, e ∈ getAllExpenses (db w) → OfflineExpense.id e ≠ id) →
  UseOfflineSync.updateExpense isOnline sync now uuid ms id updates w
  = (inl "Expense not found", w)
  ∧ UseOfflineSync.deleteExpense isOnline sync uuid ms id w
    = (inl "Expense not found", w).
Proof.
  intros Hmiss. apply find_expense_None in Hmiss.
  unfold UseOfflineSync.updateExpense, UseOfflineSync.deleteExpense,
    mbind, M_bind, read_db. simpl. by rewrite Hmiss.
Qed.

(** X13.  The first half of P6: [deleteExpense] of the hook only queues a
    [delete] action holding the record; the expenses store is as before,
    so the record is still listed, and no request has been sent. *)
Lemma deleteExpense_keeps_record isOnline sync uuid ms id w existing :
  OfflineStorage.wf (db w) →
  expenses (db w) !! id = Some existing →
  ∃ w',
    UseOfflineSync.deleteExpense isOnline sync uuid ms id w = (inr (), w')
    ∧ expenses (db w') = expenses (db w)
    ∧ existing ∈ getAllExpenses (db w')
    ∧ pending (db w') !! uuid = Some (PendingAction.mk uuid delete existing ms)
    ∧ calls w' = calls w.
Proof.
  intros Hwf Hex. eexists. split.
  { apply deleteExpense_found. by rewrite find_expense_lookup. }
  simpl. split_and!; try done.
  - apply elem_of_getAll. eauto.
  - exact (lookup_put_eq PendingAction.id
             (PendingAction.mk uuid delete existing ms) _).
Qed.
End mutations.


(** ** The order of the queue *)

Lemma getPendingActions_sorted_by_id (d : DB) :
  OfflineStorage.wf d →
  Sorted (λ a b, Is_true (JSString.leb (PendingAction.id a) (PendingAction.id b)))
         (getPendingActions d).
Proof. intros [_ Hwf]. by apply getAll_sorted. Qed.

(** X10.  A pass that is not refused sends the requests of the queued
    actions in the order in which [getPendingActions] lists them: one
    for every [update] and every [delete] action, whether its request
    then succeeds or fails, and none for a [create] action. *)
Lemma pass_replays_in_listing_order parseInt c outcome (w : World) :
  UseOfflineSync.refused c = false →
  ∃ w', UseOfflineSync.syncPendingActions parseInt c outcome w = (inr (), w')
    ∧ calls w' = calls w ++ flat_map (requests parseInt) (getPendingActions (db w)).
Proof.
  intros Hc. eexists. split; [by apply syncPendingActions_spec|].
  simpl. apply calls_iterations.
Qed.

(** C2.  The queue is listed, and so replayed, in the order of the action
    identifiers, not of the enqueue timestamps.  Two edits of record "e1"
    are queued, amount 25 at time 1000 and then amount 40 at time 2000;
    [getPendingActions] lists the action of time 2000 first, a pass in
    which both requests succeed sends amount 40 before amount 25, and the
    cached record ends as the older snapshot, marked synced. *)
Theorem replay_follows_action_id_not_timestamp :
  (λ a, (PendingAction.action a, OfflineExpense.id (PendingAction.expense a)))
    <$> getPendingActions (db Sample.edited_twice)
  = [(update, "e1"); (update, "e1")]
  ∧ PendingAction.timestamp <$> getPendingActions (db Sample.edited_twice)
    = [2000; 1000]
  ∧ ∃ w', UseOfflineSync.syncPendingActions Sample.no_parse Sample.online_idle
            (Sample.always resolves_ok) Sample.edited_twice = (inr (), w')
      ∧ Sample.sent_amount <$> calls w' = [Some 40; Some 25]
      ∧ OfflineExpense.amount <$> expenses (db w') !! "e1" = Some 25
      ∧ OfflineExpense.synced <$> expenses (db w') !! "e1" = Some true
      ∧ getPendingActions (db w') = [].
Proof.
  split_and!; [by vm_compute..|].
  eexists. split; [vm_compute; reflexivity|]. by vm_compute.
Qed.

(** ** A request that resolves with an error *)

(** C1.  A request that resolves with an [error] in the awaited value is
    taken for a success, on the update path and on the delete path alike:
    for every queued [update] or [delete] action whose request resolves
    with an error, the iteration removes the action from the queue, and
    stores the snapshot marked synced (update) or removes the cached
    record (delete).  At the sample: record "e1" was edited offline
    (amount 25), so one [update] action is queued and the record is
    unsynced; in a pass where the request resolves with an error the
    action is removed from the queue and the record is marked synced. *)
Theorem returned_error_taken_for_success :
  (∀ parseInt outcome (a : PendingAction.t) (w : World),
     PendingAction.action a ≠ create →
     outcome a = resolves_error →
     ∃ w1,
       try_catch (UseOfflineSync.sync_action parseInt outcome a) w = (inr (), w1)
       ∧ pending (db w1) !! PendingAction.id a = None
       ∧ (PendingAction.action a = update →
          expenses (db w1) !! OfflineExpense.id (PendingAction.expense a)
          = Some (OfflineExpense.mk
                (OfflineExpense.id (PendingAction.expense a))
                (OfflineExpense.user_id (PendingAction.expense a))
                (OfflineExpense.amount (PendingAction.expense a))
                (OfflineExpense.description (PendingAction.expense a))
                (OfflineExpense.date (PendingAction.expense a))
                (OfflineExpense.currency (PendingAction.expense a))
                (OfflineExpense.category_id (PendingAction.expense a))
                (OfflineExpense.category (PendingAction.expense a))
                (OfflineExpense.payment_method (PendingAction.expense a))
                (OfflineExpense.notes (PendingAction.expense a))
                (OfflineExpense.is_excluded (PendingAction.expense a))
                (OfflineExpense.source (PendingAction.expense a)) true
                (OfflineExpense.created_at (PendingAction.expense a))
                (OfflineExpense.updated_at (PendingAction.expense a))))
       ∧ (PendingAction.action a = delete →
          expenses (db w1) !! OfflineExpense.id (PendingAction.expense a) = None))
  ∧ length (getPendingActions (db Sample.edited_offline)) = 1%nat
  ∧ OfflineExpense.synced <$> expenses (db Sample.edited_offline) !! "e1"
    = Some false
  ∧ ∃ w', UseOfflineSync.syncPendingActions Sample.no_parse Sample.online_idle
            (Sample.always resolves_error) Sample.edited_offline = (inr (), w')
      ∧ Sample.sent_amount <$> calls w' = [Some 25]
      ∧ getPendingActions (db w') = []
      ∧ OfflineExpense.synced <$> expenses (db w') !! "e1" = Some true.
Proof.
  split_and!.
  - intros parseInt outcome a w Hk Ho. eexists.
    split; [apply iteration_returns|]. rewrite iteration_spec.
    assert (completes outcome a = true) as ->.
    { unfold completes. rewrite Ho. by destruct (PendingAction.action a). }
    cbn [db]. split_and!.
    + rewrite pending_settle. by rewrite decide_True.
    + intros Ha. unfold settle. rewrite Ha.
      exact (lookup_put_eq OfflineExpense.id
               (OfflineExpense.with_synced true (PendingAction.expense a)) _).
    + intros Ha. unfold settle. rewrite Ha. apply lookup_delete_eq.
  - by vm_compute.
  - by vm_compute.
  - eexists. split; [vm_compute; reflexivity|]. by vm_compute.
Qed.

(** ** Deleting a record *)


Section delete_conservative.
Context (parseInt : string → option Z).
Abbreviation syncPendingActions := (UseOfflineSync.syncPendingActions parseInt).
Abbreviation iterations := (iterations parseInt).

(** A delete whose request throws leaves the record and the action. *)
Lemma thrown_delete_keeps_record outcome (a : PendingAction.t) (w : World) :
  PendingAction.action a = delete → outcome a = throws →
  db (iteration parseInt outcome a w) = db w.
Proof.
  intros Hk Ho. rewrite iteration_spec. unfold completes. by rewrite Hk, Ho.
Qed.


End delete_conservative.

(** ** The guard of [syncPendingActions] under React *)

Lemma sync_fresh_mount : React.sync_fresh React.mount.
Proof. done. Qed.

Lemma sync_fresh_render (prev : React.Rendered) (st : React.HookState) :
  React.sync_fresh prev → React.sync_fresh (React.render prev st).
Proof.
  unfold React.sync_fresh, React.render. simpl. intros Hp.
  case_decide as Hd; [|done]. destruct Hd as [-> ->]. done.
Qed.

(** The rendered [syncPendingActions] is refused when the render it
    belongs to is offline or syncing. *)
Lemma rendered_sync_refused (rt : React.Runtime) :
  React.sync_fresh (React.rendered rt) →
  React.isOnline (React.state (React.rendered rt)) = false
  ∨ React.isSyncing (React.state (React.rendered rt)) = true →
  React.step rt React.ev_sync = rt.
Proof.
  intros Hf Hst. simpl. unfold React.enter. rewrite Hf.
  unfold UseOfflineSync.refused. simpl.
  destruct Hst as [-> | ->]; [done|]. by rewrite orb_true_r.
Qed.

(** C3.  The guard reads the [isSyncing] of the render that created the
    closure, not the current one.  From the mounted hook (online, not
    syncing): a mutation starts a pass; React renders with [isSyncing]
    true; a second mutation, made through the same memoised callback,
    starts a second pass while the first is in flight.  Two calls of the
    rendered [syncPendingActions] with no render in between do the
    same. *)
Theorem second_trigger_enters_while_first_in_flight :
  React.isSyncing (React.state (React.rendered
     (React.run React.start [React.ev_mutate 1; React.ev_render]))) = true
  ∧ React.in_flight
      (React.run React.start [React.ev_mutate 1; React.ev_render]) = 1%nat
  ∧ UseOfflineSync.refused
      (React.r_mutate (React.rendered
         (React.run React.start [React.ev_mutate 1; React.ev_render]))).2 = false
  ∧ React.in_flight
      (React.run React.start
         [React.ev_mutate 1; React.ev_render; React.ev_mutate 2]) = 2%nat
  ∧ React.executed
      (React.run React.start
         [React.ev_mutate 1; React.ev_render; React.ev_mutate 2]) = 2%nat
  ∧ React.in_flight (React.run React.start [React.ev_sync; React.ev_sync]) = 2%nat
  ∧ React.executed (React.run React.start [React.ev_sync; React.ev_sync]) = 2%nat.
Proof. by vm_compute. Qed.

(** ** The properties at the sample data *)

Lemma wf_updateExpense isOnline sync now uuid ms id updates (w : World) :
  OfflineStorage.wf (db w) →
  OfflineStorage.wf
    (db (UseOfflineSync.updateExpense isOnline sync now uuid ms id updates w).2).
Proof.
  intros Hwf.
  destruct (UseOfflineSync.find_expense id (getAllExpenses (db w))) as [e|] eqn:Hf.
  - rewrite (updateExpense_found _ _ _ _ _ _ _ _ _ Hf). simpl.
    by apply wf_addPendingAction, wf_saveExpense.
  - unfold UseOfflineSync.updateExpense, mbind, M_bind, read_db. simpl.
    by rewrite Hf.
Qed.

Lemma wf_store0 : OfflineStorage.wf Sample.store0.
Proof. apply wf_saveMultipleExpenses, wf_empty. Qed.

Lemma wf_edited_twice : OfflineStorage.wf (db Sample.edited_twice).
Proof. do 2 apply wf_updateExpense. apply wf_store0. Qed.

Lemma wf_with_create : OfflineStorage.wf (db Sample.with_create).
Proof. apply wf_addPendingAction, wf_store0. Qed.

Lemma updateExpense_optimistic_witness :
  OfflineStorage.wf (db Sample.world0)
  ∧ expenses (db Sample.world0) !! "e1" = Some Sample.e1
  ∧ ∃ w' e',
      UseOfflineSync.updateExpense true Sample.online_idle
        "2024-05-03T09:00:00.000Z" "7c9e6679-7425-40de-944b-e07fc1f90ae7"
        1714726800000 "e1" Sample.amount_50 Sample.world0 = (inr e', w')
      ∧ e' = OfflineExpense.mk "e1" "u1" 50 "lunch" "2024-05-01" "EUR" None None
               None None None (Some manual) false "2024-05-01T10:00:00.000Z"
               "2024-05-03T09:00:00.000Z"
      ∧ expenses (db w') !! "e1" = Some e'
      ∧ PendingAction.mk "7c9e6679-7425-40de-944b-e07fc1f90ae7" update e'
          1714726800000 ∈ getPendingActions (db w')
      ∧ calls w' = [].
Proof.
  split; [exact wf_store0|]. split; [reflexivity|].
  destruct (updateExpense_optimistic true Sample.online_idle
              "2024-05-03T09:00:00.000Z" "7c9e6679-7425-40de-944b-e07fc1f90ae7"
              1714726800000 "e1" Sample.amount_50 Sample.world0 Sample.e1
              wf_store0 eq_refl)
    as (w' & e' & Hrun & He & _ & _ & Hat & _ & Hq & _ & Hcalls).
  exists w', e'. split; [exact Hrun|]. split; [exact He|].
  split; [exact (Hat (or_introl eq_refl))|]. split; [exact Hq|exact Hcalls].
Defined.

Lemma updateExpense_forces_unsynced_witness :
  UseOfflineSync.find_expense "e1" (getAllExpenses (db Sample.world0))
  = Some Sample.e1
  ∧ ∃ w' e',
      UseOfflineSync.updateExpense true Sample.online_idle
        "2024-05-03T09:00:00.000Z" "7c9e6679-7425-40de-944b-e07fc1f90ae7"
        1714726800000 "e1" Sample.claims_synced Sample.world0 = (inr e', w')
      ∧ OfflineExpense.synced e' = false
      ∧ OfflineExpense.updated_at e' = "2024-05-03T09:00:00.000Z"
      ∧ expenses (db w') !! OfflineExpense.id e' = Some e'
      ∧ pending (db w') !! "7c9e6679-7425-40de-944b-e07fc1f90ae7"
        = Some (PendingAction.mk "7c9e6679-7425-40de-944b-e07fc1f90ae7" update
                  e' 1714726800000).
Proof.
  split; [vm_compute; reflexivity|].
  apply (updateExpense_forces_unsynced true Sample.online_idle
           "2024-05-03T09:00:00.000Z" "7c9e6679-7425-40de-944b-e07fc1f90ae7"
           1714726800000 "e1" Sample.claims_synced Sample.world0 Sample.e1).
  vm_compute. reflexivity.
Defined.

Lemma sample_has_no_missing_id (e : OfflineExpense.t) :
  e ∈ getAllExpenses (db Sample.world0) → OfflineExpense.id e ≠ "missing-id".
Proof.
  assert (Hl : getAllExpenses (db Sample.world0) = [Sample.e1; Sample.e2])
    by (vm_compute; reflexivity).
  rewrite Hl. intros He.
  apply elem_of_cons in He as [->|He]; [done|].
  apply elem_of_cons in He as [->|He]; [done|].
  by apply elem_of_nil in He.
Qed.

Lemma mutation_of_missing_record_rejects_witness :
  (∀ e, e ∈ getAllExpenses (db Sample.world0) →
        OfflineExpense.id e ≠ "missing-id")
  ∧ UseOfflineSync.updateExpense true Sample.online_idle
      "2024-05-03T09:00:00.000Z" "7c9e6679-7425-40de-944b-e07fc1f90ae7"
      1714726800000 "missing-id" Sample.amount_50 Sample.world0
    = (inl "Expense not found", Sample.world0)
  ∧ UseOfflineSync.deleteExpense true Sample.online_idle
      "7c9e6679-7425-40de-944b-e07fc1f90ae7" 1714726800000 "missing-id"
      Sample.world0
    = (inl "Expense not found", Sample.world0).
Proof.
  split; [exact sample_has_no_missing_id|].
  exact (mutation_of_missing_record_rejects true Sample.online_idle
           "2024-05-03T09:00:00.000Z" "7c9e6679-7425-40de-944b-e07fc1f90ae7"
           1714726800000 "missing-id" Sample.amount_50 Sample.world0
           sample_has_no_missing_id).
Defined.

Lemma drain_twice_sends_nothing_new_witness :
  OfflineStorage.wf (db Sample.edited_twice)
  ∧ UseOfflineSync.refused Sample.online_idle = false
  ∧ (∀ a, a ∈ getPendingActions (db Sample.edited_twice) →
          Sample.always resolves_ok a = resolves_ok)
  ∧ ∃ w1,
      UseOfflineSync.syncPendingActions Sample.no_parse Sample.online_idle
        (Sample.always resolves_ok) Sample.edited_twice = (inr (), w1)
      ∧ getPendingActions (db w1) = []
      ∧ calls w1 = calls Sample.edited_twice ++
                   flat_map (requests Sample.no_parse)
                            (getPendingActions (db Sample.edited_twice))
      ∧ ∀ c2 outcome2, ∃ w2,
          UseOfflineSync.syncPendingActions Sample.no_parse c2 outcome2 w1
          = (inr (), w2)
          ∧ calls w2 = calls w1 ∧ db w2 = db w1.
Proof.
  split; [exact wf_edited_twice|]. split; [reflexivity|].
  split; [intros a _; reflexivity|].
  apply (drain_twice_sends_nothing_new Sample.no_parse Sample.online_idle
           (Sample.always resolves_ok) Sample.edited_twice wf_edited_twice eq_refl).
  intros a _. reflexivity.
Defined.

Lemma create_e7_queued : Sample.create_e7 ∈ getPendingActions (db Sample.with_create).
Proof.
  apply getPendingActions_lookup; [exact wf_with_create|]. vm_compute. reflexivity.
Qed.

Lemma create_e7_alone (b : PendingAction.t) :
  b ∈ getPendingActions (db Sample.with_create) → b = Sample.create_e7.
Proof.
  assert (Hl : getPendingActions (db Sample.with_create) = [Sample.create_e7])
    by (vm_compute; reflexivity).
  rewrite Hl. intros Hb. by apply list_elem_of_singleton in Hb.
Qed.

Lemma create_action_synced_without_remote_witness :
  OfflineStorage.wf (db Sample.with_create)
  ∧ Sample.create_e7 ∈ getPendingActions (db Sample.with_create)
  ∧ PendingAction.action Sample.create_e7 = create
  ∧ UseOfflineSync.refused Sample.online_idle = false
  ∧ expenses (db Sample.with_create) !! "e7" = None
  ∧ ∃ w',
      UseOfflineSync.syncPendingActions Sample.no_parse Sample.online_idle
        (Sample.always throws) Sample.with_create = (inr (), w')
      ∧ pending (db w') !! PendingAction.id Sample.create_e7 = None
      ∧ expenses (db w') !! "e7"
        = Some (OfflineExpense.mk "e7" "u1" 99 "taxi" "2024-05-05" "EUR" None
                  None None None None (Some manual) true
                  "2024-05-05T08:00:00.000Z" "2024-05-05T08:00:00.000Z")
      ∧ calls w' = [].
Proof.
  split; [exact wf_with_create|]. split; [exact create_e7_queued|].
  split; [reflexivity|]. split; [reflexivity|]. split; [reflexivity|].
  destruct (create_action_synced_without_remote Sample.no_parse
              Sample.online_idle (Sample.always throws) Sample.with_create
              Sample.create_e7 wf_with_create create_e7_queued eq_refl eq_refl)
    as (_ & w' & Hrun & Hgone & _ & Hrec & Hcalls).
  exists w'. split; [exact Hrun|]. split; [exact Hgone|]. split.
  - exact (Hrec (λ b Hb _ _, create_e7_alone b Hb)).
  - exact (Hcalls (λ b Hb, f_equal PendingAction.action (create_e7_alone b Hb))).
Defined.

(** * Further properties of the storage class *)

Lemma saveMultipleExpenses_app (l1 l2 : list OfflineExpense.t) (db : DB) :
  saveMultipleExpenses (l1 ++ l2) db
  = saveMultipleExpenses l2 (saveMultipleExpenses l1 db).
Proof. unfold saveMultipleExpenses. simpl. by rewrite foldl_app. Qed.


(** X2.  In a batch the last record with a given id wins: when no record
    after [e] in the batch has [e]'s id, [e] is what is stored under that
    id afterwards, and it is listed. *)
Theorem saveMultipleExpenses_last_wins
    (l1 l2 : list OfflineExpense.t) (e : OfflineExpense.t) (db : DB) :
  (∀ x, x ∈ l2 → OfflineExpense.id x ≠ OfflineExpense.id e) →
  expenses (saveMultipleExpenses (l1 ++ e :: l2) db) !! OfflineExpense.id e = Some e
  ∧ e ∈ getAllExpenses (saveMultipleExpenses (l1 ++ e :: l2) db).
Proof.
  intros Hl2.
  assert (expenses (saveMultipleExpenses (l1 ++ e :: l2) db)
            !! OfflineExpense.id e = Some e) as Hk.
  { rewrite saveMultipleExpenses_app, saveMultipleExpenses_cons.
    rewrite saveMultipleExpenses_other by done. apply lookup_put_eq. }
  split; [done|]. apply elem_of_getAll. eauto.
Qed.

(** X3.  [deleteExpense] of the storage class removes by key and is
    idempotent: deleting twice is deleting once, deleting an id that is
    not stored changes nothing and raises nothing, the id is absent
    afterwards, other keys and the pending store are untouched, and the
    listing afterwards is the listing before without the record of that
    id. *)
Theorem deleteExpense_idempotent_remove (k : string) (db : DB) :
  OfflineStorage.deleteExpense k (OfflineStorage.deleteExpense k db)
  = OfflineStorage.deleteExpense k db
  ∧ expenses (OfflineStorage.deleteExpense k db) !! k = None
  ∧ (∀ j, j ≠ k →
          expenses (OfflineStorage.deleteExpense k db) !! j = expenses db !! j)
  ∧ pending (OfflineStorage.deleteExpense k db) = pending db
  ∧ (expenses db !! k = None → OfflineStorage.deleteExpense k db = db)
  ∧ (OfflineStorage.wf db →
     ∀ e, e ∈ getAllExpenses (OfflineStorage.deleteExpense k db)
          ↔ e ∈ getAllExpenses db ∧ OfflineExpense.id e ≠ k).
Proof.
  split_and!.
  - unfold OfflineStorage.deleteExpense, ObjectStore.remove. simpl.
    by rewrite delete_delete_eq.
  - apply lookup_delete_eq.
  - intros j Hj. by apply lookup_delete_ne.
  - done.
  - intros Hk. unfold OfflineStorage.deleteExpense, ObjectStore.remove.
    rewrite delete_id by done. by destruct db.
  - intros Hwf e.
    rewrite (getAllExpenses_lookup _ _ (wf_deleteExpense k db Hwf)),
      (getAllExpenses_lookup _ _ Hwf).
    unfold OfflineStorage.deleteExpense, ObjectStore.remove. simpl.
    rewrite lookup_delete_Some. split; intros [??]; split; congruence.
Qed.

(** X4.  Saving and deleting undo each other: deleting a record that
    was saved under an id not stored before gives back the database as it
    was, and a save makes an earlier delete of the same id irrelevant. *)
Theorem saveExpense_deleteExpense_round_trip (r : OfflineExpense.t) (db : DB) :
  (expenses db !! OfflineExpense.id r = None →
   OfflineStorage.deleteExpense (OfflineExpense.id r) (saveExpense r db) = db)
  ∧ saveExpense r (OfflineStorage.deleteExpense (OfflineExpense.id r) db)
    = saveExpense r db.
Proof.
  unfold OfflineStorage.deleteExpense, saveExpense, ObjectStore.remove,
    ObjectStore.put. simpl. split.
  - intros Hk. rewrite delete_insert_id by done. by destruct db.
  - by rewrite insert_delete_eq.
Qed.

(** X5.  The pending store is keyed by the action id.  Queuing an action
    under an id not yet queued makes the queue one longer, and removing
    it again gives back the database as it was; queuing an action under
    an id that is already queued replaces that action and leaves the
    length as it is; removing an id that is not queued changes nothing.
    Neither operation touches the expenses store. *)
Theorem pending_queue_keyed_by_id (a : PendingAction.t) (db : DB) :
  (pending db !! PendingAction.id a = None →
   length (getPendingActions (addPendingAction a db))
   = S (length (getPendingActions db))
   ∧ deletePendingAction (PendingAction.id a) (addPendingAction a db) = db)
  ∧ (is_Some (pending db !! PendingAction.id a) →
     length (getPendingActions (addPendingAction a db))
     = length (getPendingActions db))
  ∧ pending (addPendingAction a db) !! PendingAction.id a = Some a
  ∧ (∀ k, pending db !! k = None → deletePendingAction k db = db)
  ∧ expenses (addPendingAction a db) = expenses db
  ∧ (∀ k, expenses (deletePendingAction k db) = expenses db).
Proof.
  unfold getPendingActions, addPendingAction, deletePendingAction,
    ObjectStore.put, ObjectStore.remove. simpl. split_and!.
  - intros Hk. rewrite !length_getAll. split.
    + by apply map_size_insert_None.
    + rewrite delete_insert_id by done. by destruct db.
  - intros Hk. rewrite !length_getAll. by apply map_size_insert_Some.
  - apply lookup_insert_eq.
  - intros k Hk. rewrite delete_id by done. by destruct db.
  - done.
  - done.
Qed.

Lemma getPendingActions_unique (db : DB) (x y : PendingAction.t) :
  OfflineStorage.wf db →
  x ∈ getPendingActions db → y ∈ getPendingActions db →
  PendingAction.id x = PendingAction.id y → x = y.
Proof.
  intros Hwf Hx Hy Heq.
  apply (getPendingActions_lookup db) in Hx; [|done].
  apply (getPendingActions_lookup db) in Hy; [|done]. congruence.
Qed.

(** X6.  Both listings are in ascending order of the primary key [id],
    ids being compared code unit by code unit, whatever the other fields
    (the [timestamp] of an action included) hold, and no id is listed
    twice. *)
Theorem listings_sorted_by_id_without_repeats (db : DB) :
  OfflineStorage.wf db →
  Sorted (λ x y, Is_true (JSString.leb (OfflineExpense.id x) (OfflineExpense.id y)))
         (getAllExpenses db)
  ∧ NoDup (OfflineExpense.id <$> getAllExpenses db)
  ∧ Sorted (λ a b, Is_true (JSString.leb (PendingAction.id a) (PendingAction.id b)))
           (getPendingActions db)
  ∧ NoDup (PendingAction.id <$> getPendingActions db).
Proof.
  intros Hwf. split_and!.
  - apply getAll_sorted, Hwf.
  - apply NoDup_fmap_2_strong.
    + intros x y Hx Hy. by apply (getAllExpenses_unique db).
    + apply (getAll_NoDup OfflineExpense.id), Hwf.
  - apply getAll_sorted, Hwf.
  - apply NoDup_fmap_2_strong.
    + intros x y Hx Hy. by apply (getPendingActions_unique db).
    + apply (getAll_NoDup PendingAction.id), Hwf.
Qed.

Lemma listings_sorted_by_id_without_repeats_witness :
  OfflineStorage.wf (db Sample.edited_twice)
  ∧ Sorted (λ a b, Is_true (JSString.leb (PendingAction.id a) (PendingAction.id b)))
           (getPendingActions (db Sample.edited_twice))
  ∧ NoDup (PendingAction.id <$> getPendingActions (db Sample.edited_twice)).
Proof.
  split; [exact wf_edited_twice|].
  destruct (listings_sorted_by_id_without_repeats (db Sample.edited_twice)
              wf_edited_twice) as (_ & _ & Hs & Hn).
  split; [exact Hs | exact Hn].
Defined.

(** ** The date range query *)

Global Instance index_le_total : Total DateIndex.index_le.
Proof.
  intros x y. unfold DateIndex.index_le, DateIndex.index_leb.
  rewrite (JSString_compare_antisym (OfflineExpense.date y) (OfflineExpense.date x)).
  destruct (JSString.compare (OfflineExpense.date x) (OfflineExpense.date y));
    simpl; auto.
  destruct (JSString_leb_total (OfflineExpense.id x) (OfflineExpense.id y)) as [H|H];
    rewrite H; simpl; auto.
Qed.

Lemma Sorted_weaken {A} (R R' : A → A → Prop) (l : list A) :
  (∀ x y, R x y → R' x y) → Sorted R l → Sorted R' l.
Proof.
  intros HR. induction 1 as [|x l Hl IH Hhd]; constructor; [done|].
  destruct Hhd; constructor. by apply HR.
Qed.

(** X7.  For two valid dates whose start does not sort after the end,
    [getExpensesByDateRange] returns exactly the cached records whose
    [date] string lies between the two ISO strings, both included, in
    the order of the [date] index: ascending [date] and, for equal
    dates, ascending [id], strings being compared by code units; no
    record is returned twice and the database is only read. *)
Theorem getExpensesByDateRange_spec (startISO endISO : string) (db : DB) :
  JSString.ltb endISO startISO = false →
  ∃ l, DateIndex.getExpensesByDateRange (Some startISO) (Some endISO) db = inr l
    ∧ (∀ e, e ∈ l ↔
            e ∈ getAllExpenses db
            ∧ JSString.leb startISO (OfflineExpense.date e) = true
            ∧ JSString.leb (OfflineExpense.date e) endISO = true)
    ∧ Sorted (λ x y,
        JSString.compare (OfflineExpense.date x) (OfflineExpense.date y) = Lt
        ∨ (JSString.compare (OfflineExpense.date x) (OfflineExpense.date y) = Eq
           ∧ JSString.leb (OfflineExpense.id x) (OfflineExpense.id y) = true)) l
    ∧ (OfflineStorage.wf db → NoDup l)
    ∧ (length l ≤ length (getAllExpenses db))%nat.
Proof.
  intros Hord. unfold DateIndex.getExpensesByDateRange. rewrite Hord.
  eexists. split; [done|]. split_and!.
  - intros e. rewrite merge_sort_Permutation, list_elem_of_filter.
    unfold DateIndex.in_range. rewrite !Is_true_true. tauto.
  - eapply Sorted_weaken; [|apply Sorted_merge_sort, _].
    intros x y. unfold DateIndex.index_le, DateIndex.index_leb.
    destruct (JSString.compare _ _); [|by left|done].
    rewrite Is_true_true. by right.
  - intros Hwf. rewrite merge_sort_Permutation. apply NoDup_filter.
    apply (getAll_NoDup OfflineExpense.id), Hwf.
  - rewrite merge_sort_Permutation. apply length_filter.
Qed.

Lemma saveMultipleExpenses_last_wins_witness :
  (∀ x, x ∈ [Sample.e2] → OfflineExpense.id x ≠ OfflineExpense.id Sample2.e1')
  ∧ expenses (saveMultipleExpenses ([Sample.e1] ++ Sample2.e1' :: [Sample.e2])
                OfflineStorage.empty) !! "e1" = Some Sample2.e1'.
Proof.
  assert (H : ∀ x, x ∈ [Sample.e2] →
                   OfflineExpense.id x ≠ OfflineExpense.id Sample2.e1').
  { intros x Hx. apply list_elem_of_singleton in Hx as ->. done. }
  split; [exact H|].
  exact (proj1 (saveMultipleExpenses_last_wins [Sample.e1] [Sample.e2]
                  Sample2.e1' OfflineStorage.empty H)).
Defined.

(** * Further properties of a pass *)

Section pass_more.
Context (parseInt : string → option Z).
Abbreviation sync_action := (UseOfflineSync.sync_action parseInt).
Abbreviation syncPendingActions := (UseOfflineSync.syncPendingActions parseInt).
Abbreviation requests := (requests parseInt).
Abbreviation iteration := (iteration parseInt).
Abbreviation iterations := (iterations parseInt).
Implicit Types (outcome : PendingAction.t → RemoteOutcome)
               (a : PendingAction.t) (w : World).

(** A pass only removes from the queue: what is queued under a key
    afterwards was queued under it before. *)
Lemma pending_iterations_Some outcome l w k a :
  pending (db (iterations outcome l w)) !! k = Some a →
  pending (db w) !! k = Some a.
Proof.
  revert w. induction l as [|b l IH]; intros w Hk; [done|].
  rewrite iterations_cons in Hk. apply IH in Hk.
  rewrite iteration_spec in Hk. simpl in Hk.
  destruct (completes outcome b); [|done].
  rewrite pending_settle in Hk. by case_decide.
Qed.

Lemma queue_after_iterations outcome w a :
  OfflineStorage.wf (db w) →
  a ∈ getPendingActions (db (iterations outcome (getPendingActions (db w)) w))
  ↔ a ∈ getPendingActions (db w) ∧ completes outcome a = false.
Proof.
  intros Hwf.
  rewrite (getPendingActions_lookup _ a (wf_iterations parseInt outcome _ w Hwf)).
  split.
  - intros Hk. pose proof (pending_iterations_Some _ _ _ _ _ Hk) as Hk0.
    apply (getPendingActions_lookup _ _ Hwf) in Hk0. split; [done|].
    destruct (completes outcome a) eqn:Hc; [|done].
    by rewrite (pending_iterations_removed parseInt outcome _ w a Hk0 Hc) in Hk.
  - intros [Ha Hc]. rewrite pending_iterations_kept.
    + by apply getPendingActions_lookup.
    + intros b Hb Hcb Hid.
      assert (b = a) as -> by by apply (getPendingActions_unique (db w)).
      congruence.
Qed.

(** *** Failing storage requests and client creation *)

Lemma faulty_iteration faults outcome a w :
  ∃ w1, try_catch (Faulty.sync_action parseInt faults outcome a) w = (inr (), w1)
    ∧ state_updates w1 = state_updates w
    ∧ spawned w1 = spawned w.
Proof.
  unfold try_catch, Faulty.sync_action, Faulty.storage_write, mbind, M_bind,
    await_remote, write_db, throw, mret, M_ret.
  destruct w as [d cs us sp], a as [k kind e ts]; simpl.
  destruct kind; simpl;
    repeat match goal with |- context [outcome ?x] => destruct (outcome x) end;
    simpl; repeat (case_bool_decide; simpl); eauto.
Qed.

Lemma faulty_for_each faults outcome l w :
  ∃ w1, for_each l (λ a, try_catch (Faulty.sync_action parseInt faults outcome a)) w
        = (inr (), w1)
    ∧ state_updates w1 = state_updates w
    ∧ spawned w1 = spawned w.
Proof.
  revert w. induction l as [|a l IH]; intros w; [by eexists|].
  simpl. unfold mbind, M_bind.
  destruct (faulty_iteration faults outcome a w) as (w1 & -> & Hu & Hs).
  destruct (IH w1) as (w2 & -> & Hu2 & Hs2).
  exists w2. split; [done|]. split; congruence.
Qed.

Lemma no_faults_iteration outcome a w :
  Faulty.sync_action parseInt Faulty.no_faults outcome a w
  = sync_action outcome a w.
Proof.
  unfold Faulty.sync_action, UseOfflineSync.sync_action, Faulty.storage_write,
    mbind, M_bind.
  destruct a as [k kind e ts]; simpl. destruct kind; simpl; try done.
Qed.

Lemma no_faults_for_each outcome l w :
  for_each l (λ a, try_catch (Faulty.sync_action parseInt Faulty.no_faults outcome a)) w
  = for_each l (λ a, try_catch (sync_action outcome a)) w.
Proof.
  revert w. induction l as [|a l IH]; intros w; [done|].
  simpl. unfold mbind, M_bind, try_catch. rewrite no_faults_iteration.
  destruct (sync_action outcome a w) as [[?|?] ?]; apply IH.
Qed.

(** X8.  A pass never throws and never leaves the flag set, whatever
    fails.  Whatever the requests do, whether or not [createClient()]
    throws and whichever storage requests reject, a call of
    [syncPendingActions] returns normally and starts no other pass.  A
    refused call changes nothing.  A call that is not refused calls
    [setIsSyncing(true)] first and [setIsSyncing(false)] last; in
    between it reports the pending count, the length of the queue as the
    pass leaves it, unless one of the two queue reads rejected or
    [createClient()] threw, in which case it reports nothing; when the
    first read rejects or [createClient()] throws, the database is
    untouched and no request is sent.  With no failure the pass is the
    one of the rest of the development. *)
Theorem pass_never_throws_and_resets_flag (faults : Faulty.Faults) c outcome w :
  ∃ w', Faulty.syncPendingActions parseInt faults c outcome w = (inr (), w')
    ∧ spawned w' = spawned w
    ∧ (negb (cap_isOnline c) || cap_isSyncing c = true → w' = w)
    ∧ (negb (cap_isOnline c) || cap_isSyncing c = false →
       state_updates w'
       = state_updates w
         ++ [setIsSyncing true]
         ++ (if Faulty.first_read_fails faults || Faulty.client_fails faults
                || Faulty.last_read_fails faults
             then []
             else [setPendingCount (length (getPendingActions (db w')))])
         ++ [setIsSyncing false])
    ∧ (Faulty.first_read_fails faults || Faulty.client_fails faults = true →
       db w' = db w ∧ calls w' = calls w)
    ∧ Faulty.syncPendingActions parseInt Faulty.no_faults c outcome w
      = syncPendingActions c outcome w.
Proof.
  assert (Hsame : Faulty.syncPendingActions parseInt Faulty.no_faults c outcome w
                  = syncPendingActions c outcome w).
  { unfold Faulty.syncPendingActions, UseOfflineSync.syncPendingActions.
    destruct (UseOfflineSync.refused c); [done|].
    unfold mbind, M_bind, try_finally, try_catch, Faulty.drain,
      UseOfflineSync.drain, Faulty.storage_read, mbind, M_bind, read_db, set_state.
    cbn [Faulty.first_read_fails Faulty.client_fails Faulty.last_read_fails
         Faulty.no_faults mret M_ret db].
    by rewrite no_faults_for_each. }
  revert Hsame. unfold Faulty.syncPendingActions.
  change (negb (cap_isOnline c) || cap_isSyncing c) with (UseOfflineSync.refused c).
  destruct (UseOfflineSync.refused c) eqn:Hc; intros Hsame.
  { exists w. split_and!; done. }
  unfold mbind, M_bind, set_state, try_finally, try_catch, Faulty.drain,
    Faulty.storage_read, read_db, throw, mret, M_ret.
  destruct faults as [fr cl wr lr]. simpl.
  destruct fr; simpl.
  { eexists. split; [done|]. simpl. split_and!; try done.
    intros _. by rewrite <- app_assoc. }
  unfold mbind, M_bind. destruct cl; simpl.
  { eexists. split; [done|]. simpl. split_and!; try done.
    intros _. by rewrite <- app_assoc. }
  destruct (faulty_for_each (Faulty.mkFaults false false wr lr) outcome
              (getPendingActions (db w))
              (mkWorld (db w) (calls w) (state_updates w ++ [setIsSyncing true])
                       (spawned w)))
    as (w1 & -> & Hu & Hs).
  simpl in Hu, Hs. destruct lr; simpl.
  - eexists. split; [done|]. simpl. rewrite Hu, Hs. split_and!; try done.
    intros _. by rewrite <- app_assoc.
  - eexists. split; [done|]. simpl. rewrite Hu, Hs. split_and!; try done.
    intros _. by rewrite <- !app_assoc.
Qed.

(** X9.  After a pass that is not refused the queue holds exactly the
    actions whose request threw: an action is queued afterwards if and
    only if it was queued before and its iteration did not complete, and
    the pending count that the pass reports is the number of those. *)
Theorem queue_after_pass c outcome w :
  OfflineStorage.wf (db w) →
  UseOfflineSync.refused c = false →
  ∃ w', syncPendingActions c outcome w = (inr (), w')
    ∧ (∀ a, a ∈ getPendingActions (db w')
            ↔ a ∈ getPendingActions (db w) ∧ completes outcome a = false)
    ∧ length (getPendingActions (db w'))
      = length (filter (λ a, completes outcome a = false)
                       (getPendingActions (db w))).
Proof.
  intros Hwf Hc. eexists. split; [by apply syncPendingActions_spec|]. simpl.
  split; [intros a; by apply queue_after_iterations|].
  apply Permutation_length, NoDup_Permutation.
  - apply (getAll_NoDup PendingAction.id).
    apply (wf_iterations parseInt outcome _ w Hwf).
  - apply NoDup_filter, (getAll_NoDup PendingAction.id), Hwf.
  - intros a. rewrite list_elem_of_filter, queue_after_iterations by done. tauto.
Qed.

(** X12.  A pass leaves alone every cached record that no completing
    action of the queue is about. *)
Theorem pass_leaves_other_records c outcome w (k : string) :
  UseOfflineSync.refused c = false →
  (∀ a, a ∈ getPendingActions (db w) → completes outcome a = true →
        OfflineExpense.id (PendingAction.expense a) ≠ k) →
  ∃ w', syncPendingActions c outcome w = (inr (), w')
    ∧ expenses (db w') !! k = expenses (db w) !! k.
Proof.
  intros Hc Hk. eexists. split; [by apply syncPendingActions_spec|]. simpl.
  by apply expenses_iterations_kept.
Qed.
End pass_more.

(** * Further properties of the mutations *)

Lemma getAll_singleton {V} (k : string) (v : V) :
  ObjectStore.getAll ({[k := v]} : gmap string V) = [v].
Proof. unfold ObjectStore.getAll. by rewrite map_to_list_singleton. Qed.

Section round_trips.
Context (parseInt : string → option Z).
Abbreviation syncPendingActions := (UseOfflineSync.syncPendingActions parseInt).
Implicit Types (w : World) (existing : OfflineExpense.t)
               (updates : PartialExpense.t)
               (outcome : PendingAction.t → RemoteOutcome).

(** X14.  Edit, then synchronise.  With an empty queue, an edit of a
    cached record that keeps its id followed by a pass in which the
    request does not throw sends one update request, carrying the merged
    record's fields, for that id; afterwards the cached record is the
    merged record marked synced and the queue is empty again. *)
Theorem update_then_sync isOnline sync now uuid ms id updates w existing c outcome :
  OfflineStorage.wf (db w) →
  pending (db w) = ∅ →
  expenses (db w) !! id = Some existing →
  PartialExpense.id updates = None →
  UseOfflineSync.refused c = false →
  outcome (PendingAction.mk uuid update
             (UseOfflineSync.updated_expense existing updates now) ms) ≠ throws →
  ∃ w1 w2,
    UseOfflineSync.updateExpense isOnline sync now uuid ms id updates w
    = (inr (UseOfflineSync.updated_expense existing updates now), w1)
    ∧ syncPendingActions c outcome w1 = (inr (), w2)
    ∧ calls w2
      = calls w ++
        [remote_update
           (UseOfflineSync.update_payload parseInt
              (UseOfflineSync.updated_expense existing updates now)) id]
    ∧ expenses (db w2) !! id
      = Some (OfflineExpense.with_synced true
                (UseOfflineSync.updated_expense existing updates now))
    ∧ getPendingActions (db w2) = [].
Proof.
  intros Hwf Hq Hex Hid Hc Ho.
  assert (Heid : OfflineExpense.id existing = id) by by apply (proj1 Hwf).
  assert (Hmid : OfflineExpense.id
            (UseOfflineSync.updated_expense existing updates now) = id).
  { simpl. by rewrite Hid. }
  eexists _, _. split.
  { apply updateExpense_found. by rewrite find_expense_lookup. }
  split; [by apply syncPendingActions_spec|]. simpl.
  unfold getPendingActions, addPendingAction, ObjectStore.put. simpl.
  rewrite Hq, insert_empty, getAll_singleton. simpl.
  rewrite !iteration_spec. simpl.
  set (a := PendingAction.mk uuid update _ ms) in *.
  assert (Hcomp : completes outcome a = true).
  { unfold completes. simpl. by destruct (outcome a). }
  rewrite Hcomp. unfold settle, requests. simpl.
  rewrite Hid. simpl. rewrite Heid. split_and!.
  - done.
  - apply lookup_put_at. exact Hmid.
  - apply getAll_nil. unfold ObjectStore.remove. simpl.
    by rewrite delete_singleton_eq.
Qed.

(** X15.  Delete, then synchronise.  With an empty queue, deleting a
    cached record queues one delete action and leaves the record.  A pass
    in which the delete request does not throw sends one delete request
    for the id and leaves the record absent and the queue empty; a pass
    in which it throws sends the request and leaves the database as the
    deletion left it, the record listed and the action queued. *)
Theorem delete_then_sync isOnline sync uuid ms id w existing :
  OfflineStorage.wf (db w) →
  pending (db w) = ∅ →
  expenses (db w) !! id = Some existing →
  ∃ w1,
    UseOfflineSync.deleteExpense isOnline sync uuid ms id w = (inr (), w1)
    ∧ existing ∈ getAllExpenses (db w1)
    ∧ getPendingActions (db w1) = [PendingAction.mk uuid delete existing ms]
    ∧ (∀ c outcome,
         UseOfflineSync.refused c = false →
         outcome (PendingAction.mk uuid delete existing ms) ≠ throws →
         ∃ w2, syncPendingActions c outcome w1 = (inr (), w2)
           ∧ calls w2 = calls w ++ [remote_delete id]
           ∧ expenses (db w2) !! id = None
           ∧ getPendingActions (db w2) = [])
    ∧ (∀ c outcome,
         UseOfflineSync.refused c = false →
         outcome (PendingAction.mk uuid delete existing ms) = throws →
         ∃ w2, syncPendingActions c outcome w1 = (inr (), w2)
           ∧ calls w2 = calls w ++ [remote_delete id]
           ∧ db w2 = db w1).
Proof.
  intros Hwf Hq Hex.
  assert (Heid : OfflineExpense.id existing = id) by by apply (proj1 Hwf).
  eexists. split.
  { apply deleteExpense_found. by rewrite find_expense_lookup. }
  simpl.
  assert (Hl : getPendingActions
                 (addPendingAction (PendingAction.mk uuid delete existing ms) (db w))
               = [PendingAction.mk uuid delete existing ms]).
  { unfold getPendingActions, addPendingAction, ObjectStore.put. simpl.
    by rewrite Hq, insert_empty, getAll_singleton. }
  split_and!.
  - apply elem_of_getAll. eauto.
  - done.
  - intros c outcome Hc Ho.
    eexists. split; [by apply syncPendingActions_spec|]. simpl.
    rewrite Hl. simpl. rewrite !iteration_spec. simpl.
    set (a := PendingAction.mk uuid delete existing ms) in *.
    assert (Hcomp : completes outcome a = true).
    { unfold completes. simpl. by destruct (outcome a). }
    rewrite Hcomp. unfold settle, requests. simpl. rewrite Heid. split_and!.
    + done.
    + apply lookup_delete_eq.
    + apply getAll_nil. simpl. rewrite Hq.
      unfold ObjectStore.remove, ObjectStore.put.
      rewrite insert_empty. exact (delete_singleton_eq uuid a).
  - intros c outcome Hc Ho.
    eexists. split; [by apply syncPendingActions_spec|]. simpl.
    rewrite Hl. simpl. rewrite !iteration_spec. simpl.
    unfold completes, requests. simpl. rewrite Ho, Heid. done.
Qed.
End round_trips.

(** X16.  An edit whose [updates] carry another id does not rename the
    record: the record stored under the old id stays exactly as it was,
    the merged record is stored under the new id, and the queued action
    is about the new id. *)
Theorem updateExpense_with_other_id
    isOnline sync now uuid ms id id' updates (w : World) existing :
  OfflineStorage.wf (db w) →
  expenses (db w) !! id = Some existing →
  PartialExpense.id updates = Some id' →
  id' ≠ id →
  ∃ w',
    UseOfflineSync.updateExpense isOnline sync now uuid ms id updates w
    = (inr (UseOfflineSync.updated_expense existing updates now), w')
    ∧ expenses (db w') !! id = Some existing
    ∧ expenses (db w') !! id'
      = Some (UseOfflineSync.updated_expense existing updates now)
    ∧ OfflineExpense.id <$> (PendingAction.expense <$> pending (db w') !! uuid)
      = Some id'.
Proof.
  intros Hwf Hex Hid Hne.
  assert (Hmid : OfflineExpense.id
            (UseOfflineSync.updated_expense existing updates now) = id').
  { simpl. by rewrite Hid. }
  eexists. split.
  { apply updateExpense_found. by rewrite find_expense_lookup. }
  simpl. split_and!.
  - rewrite lookup_put_ne; [done|]. by rewrite Hmid.
  - apply lookup_put_at. exact Hmid.
  - unfold ObjectStore.put. simpl. rewrite lookup_insert_eq. simpl.
    by rewrite Hid.
Qed.

(** X17.  What an edit touches.  For a cached record and an action id
    not yet queued, [updateExpense] has, when it returns, reported a
    pending count one higher than the queue was long and sent no
    request.  When its captured [isOnline] is true it has called its
    captured [syncPendingActions] once, and if that call was not refused
    [setIsSyncing(true)] has been called as well; otherwise it has called
    no other setter.  Every other cached record and every other queued
    action are as they were. *)
Theorem updateExpense_frame isOnline sync now uuid ms id updates (w : World) existing :
  UseOfflineSync.find_expense id (getAllExpenses (db w)) = Some existing →
  pending (db w) !! uuid = None →
  ∃ w' e',
    UseOfflineSync.updateExpense isOnline sync now uuid ms id updates w
    = (inr e', w')
    ∧ state_updates w'
      = state_updates w
        ++ [setPendingCount (S (length (getPendingActions (db w))))]
        ++ (if isOnline && negb (negb (cap_isOnline sync) || cap_isSyncing sync)
            then [setIsSyncing true] else [])
    ∧ calls w' = calls w
    ∧ spawned w' = spawned w ++ (if isOnline then [sync] else [])
    ∧ (∀ k, k ≠ OfflineExpense.id e' →
            expenses (db w') !! k = expenses (db w) !! k)
    ∧ (∀ k, k ≠ uuid → pending (db w') !! k = pending (db w) !! k).
Proof.
  intros Hf Hq. eexists _, _. split; [by apply updateExpense_found|].
  simpl. split_and!; try done.
  - do 3 f_equal. unfold getPendingActions, ObjectStore.put. simpl.
    rewrite !length_getAll. by apply map_size_insert_None.
  - intros k Hk. by rewrite lookup_put_ne.
  - intros k Hk. by apply lookup_insert_ne.
Qed.

(** * Further properties of the hook under React *)

Global Instance React_Event_eq_dec : EqDecision React.Event.
Proof. solve_decision. Defined.

Lemma rendered_enter (c : SyncClosure) (rt : React.Runtime) :
  React.rendered (React.enter c rt) = React.rendered rt.
Proof. unfold React.enter. by destruct (UseOfflineSync.refused c). Qed.

Lemma rendered_step (rt : React.Runtime) (ev : React.Event) :
  ev ≠ React.ev_render →
  React.rendered (React.step rt ev) = React.rendered rt.
Proof.
  intros Hev. destruct ev; simpl; try done.
  - apply rendered_enter.
  - destruct (React.r_mutate (React.rendered rt)).1; [|done].
    by rewrite rendered_enter.
  - by destruct (React.in_flight rt).
Qed.

Lemma sync_fresh_run (evs : list React.Event) (rt : React.Runtime) :
  React.sync_fresh (React.rendered rt) →
  React.sync_fresh (React.rendered (React.run rt evs)).
Proof.
  revert rt. induction evs as [|ev evs IH]; intros rt Hrt; [done|].
  apply IH. destruct (decide (ev = React.ev_render)) as [->|Hev].
  - by apply sync_fresh_render.
  - by rewrite rendered_step.
Qed.

(** The memoised mutation callbacks hold the [isOnline] of the current
    render (their dependency list names it). *)
Lemma mutate_fresh_run (evs : list React.Event) (rt : React.Runtime) :
  (React.r_mutate (React.rendered rt)).1
  = React.isOnline (React.state (React.rendered rt)) →
  (React.r_mutate (React.rendered (React.run rt evs))).1
  = React.isOnline (React.state (React.rendered (React.run rt evs))).
Proof.
  revert rt. induction evs as [|ev evs IH]; intros rt Hrt; [done|].
  apply IH. destruct (decide (ev = React.ev_render)) as [->|Hev].
  - simpl. case_decide as Hd; [by rewrite Hd|done].
  - by rewrite rendered_step.
Qed.

(** X18.  In every state the hook can reach, a call of the rendered
    [syncPendingActions] is a no-op when the current render is offline
    or has [isSyncing] true: no setter is called and no pass starts. *)
Theorem rendered_sync_guard (evs : list React.Event) :
  React.isOnline (React.state (React.rendered (React.run React.start evs))) = false
  ∨ React.isSyncing (React.state (React.rendered (React.run React.start evs))) = true →
  React.step (React.run React.start evs) React.ev_sync = React.run React.start evs.
Proof.
  intros Hst. apply rendered_sync_refused; [|done].
  apply sync_fresh_run, sync_fresh_mount.
Qed.

(** X19.  In every state the hook can reach, a mutation made while the
    current render is offline starts no pass: it only reports the pending
    count. *)
Theorem offline_mutation_starts_no_pass (evs : list React.Event) (n : nat) :
  React.isOnline (React.state (React.rendered (React.run React.start evs))) = false →
  React.step (React.run React.start evs) (React.ev_mutate n)
  = React.mkRuntime (React.rendered (React.run React.start evs))
                    (React.queued (React.run React.start evs) ++ [setPendingCount n])
                    (React.in_flight (React.run React.start evs))
                    (React.executed (React.run React.start evs)).
Proof.
  intros Hoff. simpl.
  by rewrite (mutate_fresh_run evs React.start eq_refl), Hoff.
Qed.




(** ** The reconnect effect *)

Lemma deps_fresh_run (evs : list Reconnect.Event) (rt : Reconnect.Runtime) :
  Reconnect.deps rt
  = (React.isOnline (React.state (React.rendered (Reconnect.base rt))),
     React.isSyncing (React.state (React.rendered (Reconnect.base rt)))) →
  Reconnect.deps (Reconnect.run rt evs)
  = (React.isOnline (React.state (React.rendered (Reconnect.base (Reconnect.run rt evs)))),
     React.isSyncing (React.state (React.rendered (Reconnect.base (Reconnect.run rt evs))))).
Proof.
  revert rt. induction evs as [|ev evs IH]; intros rt Hrt; [done|].
  apply IH. destruct ev as [ev|].
  - destruct (decide (ev = React.ev_render)) as [->|Hev].
    + simpl. case_decide as Hd; simpl; [by rewrite Hd|done].
    + assert (Reconnect.step rt (Reconnect.ev_react ev)
              = Reconnect.mkRuntime (React.step (Reconnect.base rt) ev)
                                    (Reconnect.deps rt) (Reconnect.timer rt)) as ->
        by by destruct ev.
      simpl. by rewrite rendered_step.
  - simpl. destruct (Reconnect.timer rt); simpl; [|done].
    by rewrite rendered_enter.
Qed.

(** X21.  Going offline and coming back starts one pass.  From any state
    the hook can reach in which the current render is online and not
    syncing and no setter call is waiting, the offline event, the two
    renders it causes, the online event, the render it causes and the
    timer together start exactly one pass, and the timer is spent. *)
Theorem reconnect_starts_one_pass (evs : list Reconnect.Event) :
  React.isOnline (React.state (React.rendered
     (Reconnect.base (Reconnect.run Reconnect.start evs)))) = true →
  React.isSyncing (React.state (React.rendered
     (Reconnect.base (Reconnect.run Reconnect.start evs)))) = false →
  React.queued (Reconnect.base (Reconnect.run Reconnect.start evs)) = [] →
  React.executed (Reconnect.base
     (Reconnect.run (Reconnect.run Reconnect.start evs)
        [Reconnect.ev_react (React.ev_connectivity false);
         Reconnect.ev_react React.ev_render;
         Reconnect.ev_react React.ev_render;
         Reconnect.ev_react (React.ev_connectivity true);
         Reconnect.ev_react React.ev_render;
         Reconnect.ev_timeout]))
  = S (React.executed (Reconnect.base (Reconnect.run Reconnect.start evs)))
  ∧ React.in_flight (Reconnect.base
      (Reconnect.run (Reconnect.run Reconnect.start evs)
         [Reconnect.ev_react (React.ev_connectivity false);
          Reconnect.ev_react React.ev_render;
          Reconnect.ev_react React.ev_render;
          Reconnect.ev_react (React.ev_connectivity true);
          Reconnect.ev_react React.ev_render;
          Reconnect.ev_timeout]))
    = S (React.in_flight (Reconnect.base (Reconnect.run Reconnect.start evs)))
  ∧ Reconnect.timer
      (Reconnect.run (Reconnect.run Reconnect.start evs)
         [Reconnect.ev_react (React.ev_connectivity false);
          Reconnect.ev_react React.ev_render;
          Reconnect.ev_react React.ev_render;
          Reconnect.ev_react (React.ev_connectivity true);
          Reconnect.ev_react React.ev_render;
          Reconnect.ev_timeout]) = None.
Proof.
  pose proof (deps_fresh_run evs Reconnect.start eq_refl) as Hd.
  destruct (Reconnect.run Reconnect.start evs)
    as [[[[o s p wo] rs rm] q inf ex] d t].
  cbn [Reconnect.base Reconnect.deps React.rendered React.state React.isOnline
       React.isSyncing React.queued React.executed React.in_flight] in Hd |- *.
  intros -> -> ->. subst d. by cbv.
Qed.


(** * The further properties at the sample data *)

Lemma wf_edited_both : OfflineStorage.wf (db Sample2.edited_both).
Proof. do 2 apply wf_updateExpense. apply wf_store0. Qed.

Lemma queue_of_edited_both :
  getPendingActions (db Sample2.edited_both)
  = [Sample2.update_e2; Sample2.update_e1].
Proof. vm_compute. reflexivity. Qed.

Lemma only_e2_completes (a : PendingAction.t) :
  a ∈ getPendingActions (db Sample2.edited_both) →
  completes Sample2.e1_throws a = true → a = Sample2.update_e2.
Proof.
  rewrite queue_of_edited_both. intros Ha Hc.
  apply elem_of_cons in Ha as [->|Ha]; [done|].
  apply list_elem_of_singleton in Ha as ->. by vm_compute in Hc.
Qed.

Lemma queue_after_pass_witness :
  OfflineStorage.wf (db Sample2.edited_both)
  ∧ UseOfflineSync.refused Sample.online_idle = false
  ∧ ∃ w', UseOfflineSync.syncPendingActions Sample.no_parse Sample.online_idle
            Sample2.e1_throws Sample2.edited_both = (inr (), w')
      ∧ (Sample2.update_e1 ∈ getPendingActions (db w'))
      ∧ (Sample2.update_e2 ∉ getPendingActions (db w'))
      ∧ length (getPendingActions (db w')) = 1%nat.
Proof.
  split; [exact wf_edited_both|]. split; [reflexivity|].
  destruct (queue_after_pass Sample.no_parse Sample.online_idle
              Sample2.e1_throws Sample2.edited_both wf_edited_both eq_refl)
    as (w' & Hrun & Hmem & Hlen).
  exists w'. split; [exact Hrun|]. split_and!.
  - apply Hmem. rewrite queue_of_edited_both. split; [|reflexivity].
    apply elem_of_cons. right. apply list_elem_of_singleton. reflexivity.
  - intros Hin. apply Hmem in Hin as [_ Hc]. vm_compute in Hc. discriminate Hc.
  - rewrite Hlen, queue_of_edited_both. vm_compute. reflexivity.
Defined.

Lemma pass_replays_in_listing_order_witness :
  UseOfflineSync.refused Sample.online_idle = false
  ∧ ∃ w', UseOfflineSync.syncPendingActions Sample.no_parse Sample.online_idle
            Sample2.e1_throws Sample2.edited_both = (inr (), w')
      ∧ Sample.sent_amount <$> calls w' = [Some 40; Some 25].
Proof.
  split; [reflexivity|].
  destruct (pass_replays_in_listing_order Sample.no_parse Sample.online_idle
              Sample2.e1_throws Sample2.edited_both eq_refl)
    as (w' & Hrun & Hcalls).
  exists w'. split; [exact Hrun|]. rewrite Hcalls, queue_of_edited_both.
  vm_compute. reflexivity.
Defined.

Lemma thrown_failure_is_isolated_witness :
  OfflineStorage.wf (db Sample2.edited_both)
  ∧ UseOfflineSync.refused Sample.online_idle = false
  ∧ Sample2.update_e1 ∈ getPendingActions (db Sample2.edited_both)
  ∧ Sample2.update_e2 ∈ getPendingActions (db Sample2.edited_both)
  ∧ completes Sample2.e1_throws Sample2.update_e1 = false
  ∧ completes Sample2.e1_throws Sample2.update_e2 = true
  ∧ PendingAction.action Sample2.update_e2 ≠ delete
  ∧ ∃ w', UseOfflineSync.syncPendingActions Sample.no_parse Sample.online_idle
            Sample2.e1_throws Sample2.edited_both = (inr (), w')
      ∧ pending (db w') !! PendingAction.id Sample2.update_e1
        = Some Sample2.update_e1
      ∧ pending (db w') !! PendingAction.id Sample2.update_e2 = None
      ∧ expenses (db w') !! "e2"
        = Some (OfflineExpense.with_synced true
                  (PendingAction.expense Sample2.update_e2)).
Proof.
  assert (H1 : Sample2.update_e1 ∈ getPendingActions (db Sample2.edited_both)).
  { rewrite queue_of_edited_both. apply elem_of_cons. right.
    apply list_elem_of_singleton. reflexivity. }
  assert (H2 : Sample2.update_e2 ∈ getPendingActions (db Sample2.edited_both)).
  { rewrite queue_of_edited_both. apply elem_of_cons. left. reflexivity. }
  assert (H3 : PendingAction.action Sample2.update_e2 ≠ delete)
    by (intros H; discriminate H).
  split; [exact wf_edited_both|]. split; [reflexivity|].
  split; [exact H1|]. split; [exact H2|]. split; [reflexivity|].
  split; [reflexivity|]. split; [exact H3|].
  exact (thrown_failure_is_isolated Sample.no_parse Sample.online_idle
           Sample2.e1_throws Sample2.edited_both Sample2.update_e1
           Sample2.update_e2 wf_edited_both eq_refl H1 H2 eq_refl eq_refl H3
           (λ b Hb Hc _, only_e2_completes b Hb Hc)).
Defined.

Lemma pass_leaves_other_records_witness :
  UseOfflineSync.refused Sample.online_idle = false
  ∧ (∀ a, a ∈ getPendingActions (db Sample2.edited_both) →
          completes Sample2.e1_throws a = true →
          OfflineExpense.id (PendingAction.expense a) ≠ "e1")
  ∧ ∃ w', UseOfflineSync.syncPendingActions Sample.no_parse Sample.online_idle
            Sample2.e1_throws Sample2.edited_both = (inr (), w')
      ∧ expenses (db w') !! "e1" = expenses (db Sample2.edited_both) !! "e1".
Proof.
  assert (H : ∀ a, a ∈ getPendingActions (db Sample2.edited_both) →
                   completes Sample2.e1_throws a = true →
                   OfflineExpense.id (PendingAction.expense a) ≠ "e1").
  { intros a Ha Hc. rewrite (only_e2_completes a Ha Hc). done. }
  split; [reflexivity|]. split; [exact H|].
  exact (pass_leaves_other_records Sample.no_parse Sample.online_idle
           Sample2.e1_throws Sample2.edited_both "e1" eq_refl H).
Defined.

Lemma deleteExpense_keeps_record_witness :
  OfflineStorage.wf (db Sample.world0)
  ∧ expenses (db Sample.world0) !! "e2" = Some Sample.e2
  ∧ ∃ w',
      UseOfflineSync.deleteExpense true Sample.online_idle
        "3d6f0a2e-1c4b-4f7a-9b8e-5a2d7c9e1f30" 1714726800000 "e2" Sample.world0
      = (inr (), w')
      ∧ expenses (db w') = expenses (db Sample.world0)
      ∧ Sample.e2 ∈ getAllExpenses (db w')
      ∧ pending (db w') !! "3d6f0a2e-1c4b-4f7a-9b8e-5a2d7c9e1f30"
        = Some (PendingAction.mk "3d6f0a2e-1c4b-4f7a-9b8e-5a2d7c9e1f30" delete
                  Sample.e2 1714726800000)
      ∧ calls w' = calls Sample.world0.
Proof.
  split; [exact wf_store0|]. split; [reflexivity|].
  exact (deleteExpense_keeps_record true Sample.online_idle
           "3d6f0a2e-1c4b-4f7a-9b8e-5a2d7c9e1f30" 1714726800000 "e2"
           Sample.world0 Sample.e2 wf_store0 eq_refl).
Defined.

Lemma update_then_sync_witness :
  OfflineStorage.wf (db Sample.world0)
  ∧ pending (db Sample.world0) = ∅
  ∧ expenses (db Sample.world0) !! "e1" = Some Sample.e1
  ∧ PartialExpense.id Sample.amount_25 = None
  ∧ UseOfflineSync.refused Sample.online_idle = false
  ∧ ∃ w1 w2,
      UseOfflineSync.updateExpense false Sample.online_idle
        "2024-05-03T09:00:00.000Z" "7c9e6679-7425-40de-944b-e07fc1f90ae7"
        1714726800000 "e1" Sample.amount_25 Sample.world0
      = (inr (UseOfflineSync.updated_expense Sample.e1 Sample.amount_25
                "2024-05-03T09:00:00.000Z"), w1)
      ∧ UseOfflineSync.syncPendingActions Sample.no_parse Sample.online_idle
          (Sample.always resolves_ok) w1 = (inr (), w2)
      ∧ Sample.sent_amount <$> calls w2 = [Some 25]
      ∧ OfflineExpense.synced <$> expenses (db w2) !! "e1" = Some true
      ∧ getPendingActions (db w2) = [].
Proof.
  split; [exact wf_store0|]. split; [reflexivity|]. split; [reflexivity|].
  split; [reflexivity|]. split; [reflexivity|].
  destruct (update_then_sync Sample.no_parse false Sample.online_idle
              "2024-05-03T09:00:00.000Z" "7c9e6679-7425-40de-944b-e07fc1f90ae7"
              1714726800000 "e1" Sample.amount_25 Sample.world0 Sample.e1
              Sample.online_idle (Sample.always resolves_ok)
              wf_store0 eq_refl eq_refl eq_refl eq_refl
              (λ H, eq_ind resolves_ok
                      (λ o, match o with throws => False | _ => True end)
                      I throws H))
    as (w1 & w2 & Hup & Hrun & Hcalls & Hrec & Hq).
  exists w1, w2. split; [exact Hup|]. split; [exact Hrun|].
  split; [rewrite Hcalls; reflexivity|]. split; [rewrite Hrec; reflexivity|].
  exact Hq.
Defined.

Lemma delete_then_sync_witness :
  OfflineStorage.wf (db Sample.world0)
  ∧ pending (db Sample.world0) = ∅
  ∧ expenses (db Sample.world0) !! "e2" = Some Sample.e2
  ∧ ∃ w1,
      UseOfflineSync.deleteExpense false Sample.online_idle
        "3d6f0a2e-1c4b-4f7a-9b8e-5a2d7c9e1f30" 1714726800000 "e2" Sample.world0
      = (inr (), w1)
      ∧ Sample.e2 ∈ getAllExpenses (db w1)
      ∧ (∃ w2, UseOfflineSync.syncPendingActions Sample.no_parse
                 Sample.online_idle (Sample.always resolves_ok) w1 = (inr (), w2)
           ∧ expenses (db w2) !! "e2" = None
           ∧ getPendingActions (db w2) = [])
      ∧ (∃ w2, UseOfflineSync.syncPendingActions Sample.no_parse
                 Sample.online_idle (Sample.always throws) w1 = (inr (), w2)
           ∧ db w2 = db w1).
Proof.
  split; [exact wf_store0|]. split; [reflexivity|]. split; [reflexivity|].
  destruct (delete_then_sync Sample.no_parse false Sample.online_idle
              "3d6f0a2e-1c4b-4f7a-9b8e-5a2d7c9e1f30" 1714726800000 "e2"
              Sample.world0 Sample.e2 wf_store0 eq_refl eq_refl)
    as (w1 & Hdel & Hin & _ & Hok & Hthrow).
  exists w1. split; [exact Hdel|]. split; [exact Hin|]. split.
  - destruct (Hok Sample.online_idle (Sample.always resolves_ok) eq_refl
                (λ H, eq_ind resolves_ok
                        (λ o, match o with throws => False | _ => True end)
                        I throws H))
      as (w2 & Hrun & _ & Hgone & Hq).
    exists w2. split; [exact Hrun|]. split; [exact Hgone|exact Hq].
  - destruct (Hthrow Sample.online_idle (Sample.always throws) eq_refl eq_refl)
      as (w2 & Hrun & _ & Hdb).
    exists w2. split; [exact Hrun|exact Hdb].
Defined.

Lemma updateExpense_with_other_id_witness :
  OfflineStorage.wf (db Sample.world0)
  ∧ expenses (db Sample.world0) !! "e1" = Some Sample.e1
  ∧ PartialExpense.id Sample2.rename_to_e9 = Some "e9"
  ∧ "e9" ≠ "e1"
  ∧ ∃ w',
      UseOfflineSync.updateExpense false Sample.online_idle
        "2024-05-03T09:00:00.000Z" "7c9e6679-7425-40de-944b-e07fc1f90ae7"
        1714726800000 "e1" Sample2.rename_to_e9 Sample.world0
      = (inr (UseOfflineSync.updated_expense Sample.e1 Sample2.rename_to_e9
                "2024-05-03T09:00:00.000Z"), w')
      ∧ expenses (db w') !! "e1" = Some Sample.e1
      ∧ expenses (db w') !! "e9"
        = Some (UseOfflineSync.updated_expense Sample.e1 Sample2.rename_to_e9
                  "2024-05-03T09:00:00.000Z")
      ∧ OfflineExpense.id <$>
          (PendingAction.expense <$>
             pending (db w') !! "7c9e6679-7425-40de-944b-e07fc1f90ae7")
        = Some "e9".
Proof.
  assert (Hne : "e9" ≠ "e1") by (intros H; discriminate H).
  split; [exact wf_store0|]. split; [reflexivity|]. split; [reflexivity|].
  split; [exact Hne|].
  exact (updateExpense_with_other_id false Sample.online_idle
           "2024-05-03T09:00:00.000Z" "7c9e6679-7425-40de-944b-e07fc1f90ae7"
           1714726800000 "e1" "e9" Sample2.rename_to_e9 Sample.world0 Sample.e1
           wf_store0 eq_refl eq_refl Hne).
Defined.

Lemma updateExpense_frame_witness :
  UseOfflineSync.find_expense "e1" (getAllExpenses (db Sample.world0))
  = Some Sample.e1
  ∧ pending (db Sample.world0) !! "7c9e6679-7425-40de-944b-e07fc1f90ae7" = None
  ∧ ∃ w' e',
      UseOfflineSync.updateExpense true Sample.online_idle
        "2024-05-03T09:00:00.000Z" "7c9e6679-7425-40de-944b-e07fc1f90ae7"
        1714726800000 "e1" Sample.amount_50 Sample.world0
      = (inr e', w')
      ∧ state_updates w' = [setPendingCount 1; setIsSyncing true]
      ∧ calls w' = []
      ∧ spawned w' = [Sample.online_idle]
      ∧ expenses (db w') !! "e2" = Some Sample.e2.
Proof.
  assert (Hf : UseOfflineSync.find_expense "e1" (getAllExpenses (db Sample.world0))
               = Some Sample.e1) by (vm_compute; reflexivity).
  split; [exact Hf|]. split; [reflexivity|].
  destruct (updateExpense_frame true Sample.online_idle
              "2024-05-03T09:00:00.000Z" "7c9e6679-7425-40de-944b-e07fc1f90ae7"
              1714726800000 "e1" Sample.amount_50 Sample.world0 Sample.e1
              Hf eq_refl)
    as (w' & e' & Hrun & Hcount & Hcalls & Hsp & Hrec & _).
  assert (He : e' = UseOfflineSync.updated_expense Sample.e1 Sample.amount_50
                      "2024-05-03T09:00:00.000Z").
  { rewrite (updateExpense_found true Sample.online_idle
               "2024-05-03T09:00:00.000Z" "7c9e6679-7425-40de-944b-e07fc1f90ae7"
               1714726800000 "e1" Sample.amount_50 Sample.world0 Sample.e1 Hf)
      in Hrun.
    injection Hrun as He _. symmetry. exact He. }
  exists w', e'. split; [exact Hrun|]. split.
  { rewrite Hcount. vm_compute. reflexivity. }
  split; [exact Hcalls|]. split; [exact Hsp|].
  rewrite (Hrec "e2"); [reflexivity|]. rewrite He. intros H. discriminate H.
Defined.

Lemma rendered_sync_guard_witness :
  (React.isOnline (React.state (React.rendered
      (React.run React.start [React.ev_sync; React.ev_render]))) = false
   ∨ React.isSyncing (React.state (React.rendered
      (React.run React.start [React.ev_sync; React.ev_render]))) = true)
  ∧ React.step (React.run React.start [React.ev_sync; React.ev_render]) React.ev_sync
    = React.run React.start [React.ev_sync; React.ev_render].
Proof.
  split; [right; reflexivity|].
  exact (rendered_sync_guard [React.ev_sync; React.ev_render]
           (or_intror eq_refl)).
Defined.

Lemma offline_mutation_starts_no_pass_witness :
  React.isOnline (React.state (React.rendered
     (React.run React.start [React.ev_connectivity false; React.ev_render])))
  = false
  ∧ React.executed
      (React.step
         (React.run React.start [React.ev_connectivity false; React.ev_render])
         (React.ev_mutate 1)) = 0%nat.
Proof.
  split; [reflexivity|].
  rewrite (offline_mutation_starts_no_pass
             [React.ev_connectivity false; React.ev_render] 1 eq_refl).
  reflexivity.
Defined.



Lemma reconnect_starts_one_pass_witness :
  React.isOnline (React.state (React.rendered
     (Reconnect.base (Reconnect.run Reconnect.start [])))) = true
  ∧ React.isSyncing (React.state (React.rendered
       (Reconnect.base (Reconnect.run Reconnect.start [])))) = false
  ∧ React.queued (Reconnect.base (Reconnect.run Reconnect.start [])) = []
  ∧ React.executed (Reconnect.base
       (Reconnect.run (Reconnect.run Reconnect.start [])
          [Reconnect.ev_react (React.ev_connectivity false);
           Reconnect.ev_react React.ev_render;
           Reconnect.ev_react React.ev_render;
           Reconnect.ev_react (React.ev_connectivity true);
           Reconnect.ev_react React.ev_render;
           Reconnect.ev_timeout]))
    = S (React.executed (Reconnect.base (Reconnect.run Reconnect.start []))).
Proof.
  split; [reflexivity|]. split; [reflexivity|]. split; [reflexivity|].
  exact (proj1 (reconnect_starts_one_pass [] eq_refl eq_refl eq_refl)).
Defined.



Lemma getExpensesByDateRange_spec_witness :
  JSString.ltb "2024-05-03T00:00:00.000Z" "2024-05-02" = false
  ∧ ∃ l,
      DateIndex.getExpensesByDateRange (Some "2024-05-02")
        (Some "2024-05-03T00:00:00.000Z") Sample.store0 = inr l
      ∧ (Sample.e2 ∈ l)
      ∧ (Sample.e1 ∉ l).
Proof.
  split; [reflexivity|].
  destruct (getExpensesByDateRange_spec "2024-05-02" "2024-05-03T00:00:00.000Z"
              Sample.store0 eq_refl)
    as (l & Hrun & Hmem & _).
  exists l. split; [exact Hrun|]. split.
  - apply Hmem. split; [|split; reflexivity].
    apply elem_of_getAll. exists "e2". reflexivity.
  - intros Hin. apply Hmem in Hin as (_ & Hlo & _). discriminate Hlo.
Defined.
